(** * Lently: client cache, API wrapper, job progress view and the
      spec-level pipeline components

    Shallow embedding of the TypeScript client of the repository
    (lib/cache/dataCache.ts, lib/api/client.ts, lib/api/videos.ts,
    lib/api/comments.ts, lib/api/alerts.ts, pages/Analyzing.tsx,
    pages/dashboard/AddVideo.tsx, components/video-details/AskAISection.tsx),
    of the rate-limiter key function documented with the backend, and of the
    backend components that the repository only describes.

    Conventions: [Date.now()] is an explicit argument of type [Z]
    (milliseconds); a JavaScript [Map<string, _>] is a [gmap string _];
    [T | null] is [option T]; a promise that rejects is an [Error] result. *)

From Stdlib Require Import ZArith String Ascii List Bool Lia DecimalString.
From stdpp Require Import gmap strings list fin_maps.

Local Open Scope string_scope.
Local Open Scope list_scope.
Local Open Scope Z_scope.

(** ** JavaScript string helpers *)

(** [String.prototype.includes]: [pattern] occurs somewhere in [s]. *)
Fixpoint includes (s pattern : string) : bool :=
  String.prefix pattern s
  || match s with
     | EmptyString => false
     | String _ rest => includes rest pattern
     end.

(** ** lib/cache/dataCache.ts *)

Record CacheEntry (T : Type) : Type := mkEntry {
  data : T;
  timestamp : Z;
  expiresAt : Z;
}.
Arguments mkEntry {T} _ _ _.
Arguments data {T} _.
Arguments timestamp {T} _.
Arguments expiresAt {T} _.

Module CACHE_KEYS.
Definition USER_PROFILE : string := "user:profile".
Definition USER_VIDEOS : string := "user:videos".
Definition VIDEO_DETAILS (videoId : string) : string := "video:" +:+ videoId.
Definition VIDEO_COMMENTS (videoId : string) : string := "comments:" +:+ videoId.
Definition ALL_COMMENTS : string := "comments:all".
End CACHE_KEYS.

Module DataCache.
Section WithData.
Context {T : Type}.

(** The private field [cache : Map<string, CacheEntry<any>>]. *)
Abbreviation store := (gmap string (CacheEntry T)).

Definition defaultTTL : Z := 5 * 60 * 1000.

(** [get(key)], called when the clock reads [now]: the value read (or
    [None] for [null]) and the cache afterwards. *)
Definition get (now : Z) (key : string) (c : store) : option T * store :=
  match c !! key with
  | None => (None, c)
  | Some entry =>
      if now >? expiresAt entry then (None, delete key c)
      else (Some (data entry), c)
  end.

(** [set(key, data, ttl)], called when the clock reads [now]. *)
Definition set (now : Z) (key : string) (d : T) (ttl : Z) (c : store) : store :=
  <[key := mkEntry d now (now + ttl)]> c.

(** [set(key, data)] with the default argument. *)
Definition set_default (now : Z) (key : string) (d : T) (c : store) : store :=
  set now key d defaultTTL c.

Definition invalidate (key : string) (c : store) : store := delete key c.

(** [invalidatePattern]: the keys are snapshotted, then every key that
    includes the pattern is deleted, one at a time. *)
Definition invalidatePattern_keys (pattern : string) (keys : list string)
    (c : store) : store :=
  fold_left (fun m key => if includes key pattern then delete key m else m)
            keys c.

Definition invalidatePattern (pattern : string) (c : store) : store :=
  invalidatePattern_keys pattern (map fst (map_to_list c)) c.

Definition clear (c : store) : store := ∅.

Definition has (now : Z) (key : string) (c : store) : bool * store :=
  let '(r, c') := get now key c in
  (match r with Some _ => true | None => false end, c').

(** The operations of the class, as data, to quantify over "any
    operation". *)
Inductive op : Type :=
  | OpGet (now : Z) (key : string)
  | OpSet (now : Z) (key : string) (d : T) (ttl : Z)
  | OpInvalidate (key : string)
  | OpInvalidatePattern (pattern : string)
  | OpClear
  | OpHas (now : Z) (key : string).

Definition run_op (o : op) (c : store) : store :=
  match o with
  | OpGet now key => snd (get now key c)
  | OpSet now key d ttl => set now key d ttl c
  | OpInvalidate key => invalidate key c
  | OpInvalidatePattern p => invalidatePattern p c
  | OpClear => clear c
  | OpHas now key => snd (has now key c)
  end.
End WithData.
End DataCache.

(** How one operation of the cache can affect the entry [e] held under
    [key]: [after] is what the key holds afterwards. *)
Definition entry_fate {T} (o : @DataCache.op T) (key : string)
    (e : CacheEntry T) (after : option (CacheEntry T)) : Prop :=
  match after with
  | Some e' =>
      e' = e
      \/ exists now d ttl,
           o = DataCache.OpSet now key d ttl /\ e' = mkEntry d now (now + ttl)
  | None =>
      (exists now, (o = DataCache.OpGet now key \/ o = DataCache.OpHas now key)
                   /\ expiresAt e < now)
      \/ o = DataCache.OpInvalidate key
      \/ (exists p, o = DataCache.OpInvalidatePattern p /\ includes key p = true)
      \/ o = DataCache.OpClear
  end.

(** ** lib/api/videos.ts: cache invalidation *)

Definition invalidateVideosCache {T} (c : gmap string (CacheEntry T))
    : gmap string (CacheEntry T) :=
  DataCache.invalidatePattern "comments:"
    (DataCache.invalidatePattern "video:"
       (DataCache.invalidate CACHE_KEYS.USER_VIDEOS c)).

(** The keys the routine is meant to drop. *)
Definition videos_cache_key (key : string) : bool :=
  String.eqb key CACHE_KEYS.USER_VIDEOS
  || includes key "video:" || includes key "comments:".

(** ** Results of asynchronous calls

    An awaited promise either resolves with a value or rejects with an
    [Error]; only the error's [message] is ever inspected. *)

Inductive result (A : Type) : Type :=
| Ok (value : A)
| Throw (message : string).
Arguments Ok {A} _.
Arguments Throw {A} _.

(** Template-literal interpolation of an integer-valued number. *)
Definition number_to_string (n : Z) : string :=
  NilZero.string_of_int (Z.to_int n).

(** JavaScript truthiness of a string. *)
Definition truthy_string (s : string) : bool := negb (String.eqb s "").

(** ** lib/api/client.ts *)

Module Client.

(** [tokenCache: { token; expiresAt } | null]. *)
Record TokenCache : Type := mkToken { token : string; tokenExpiresAt : Z }.

Definition HeadersInit := gmap string string.

Definition authHeaders (tok : string) : HeadersInit :=
  <["Authorization" := "Bearer " +:+ tok]>
    (<["Content-Type" := "application/json"]> ∅).

(** [auth.currentUser] is [None] when nobody is signed in; otherwise it
    carries the outcome of [user.getIdToken(false)]. *)
Definition CurrentUser := option (result string).

Definition getAuthHeaders (now : Z) (user : CurrentUser)
    (tc : option TokenCache) : result HeadersInit * option TokenCache :=
  match user with
  | None => (Throw "User not authenticated", tc)
  | Some getIdToken =>
      let refresh :=
        match getIdToken with
        | Throw m => (Throw m, tc)
        | Ok tok =>
            (Ok (authHeaders tok), Some (mkToken tok (now + 55 * 60 * 1000)))
        end in
      match tc with
      | Some cached =>
          if tokenExpiresAt cached >? now
          then (Ok (authHeaders (token cached)), tc)
          else refresh
      | None => refresh
      end
  end.

Definition clearTokenCache : option TokenCache := None.

Record RequestInit : Type := mkInit {
    method : option string;
    body : option string;
    headers : HeadersInit;
  }.

(** [options: RequestInit = {}]. *)
Definition noOptions : RequestInit := mkInit None None ∅.

(** What [apiFetch] reads of a [Response]. The body is the outcome of
    [response.json()]; a parsed body is a JSON object, of which the
    wrapper looks at the member [detail] only. [detail] is a string in the
    backend's error format [{"detail": "..."}]. *)
Record Response (Json : Type) : Type := mkResponse {
    ok : bool;
    status : Z;
    json : result Json;
  }.
Arguments mkResponse {Json} _ _ _.
Arguments ok {Json} _.
Arguments status {Json} _.
Arguments json {Json} _.

Section ApiFetch.
(** Parsed JSON bodies, with the property access [.detail]
    ([None] for [undefined]). *)
Context {Json : Type} (detail : Json -> option string).
(** [import.meta.env.VITE_API_URL || 'http://localhost:8000']. *)
Context (API_URL : string).
(** The browser's [fetch]: resolves with a response or rejects. *)
Context (fetch : string -> RequestInit -> result (Response Json)).

(** [error.detail || `HTTP ${response.status}`], where [error] is the
    parsed body, or [{ detail: 'An error occurred' }] when
    [response.json()] rejects. *)
Definition errorMessage (response : Response Json) : string :=
  let d :=
    match json response with
    | Ok error => detail error
    | Throw _ => Some "An error occurred"
    end in
  match d with
  | Some m => if truthy_string m then m
              else "HTTP " +:+ number_to_string (status response)
  | None => "HTTP " +:+ number_to_string (status response)
  end.

(** [apiFetch(endpoint, options)] at clock reading [now]: the outcome
    and the token cache afterwards. *)
Definition apiFetch (now : Z) (user : CurrentUser) (endpoint : string)
    (options : RequestInit) (tc : option TokenCache)
    : result Json * option TokenCache :=
  match getAuthHeaders now user tc with
  | (Throw m, tc1) => (Throw m, tc1)
  | (Ok hs, tc1) =>
      let init := mkInit (method options) (body options)
                         (headers options ∪ hs) in
      match fetch (API_URL +:+ endpoint) init with
      | Throw m => (Throw m, tc1)
      | Ok response =>
          if negb (ok response) then
            let tc2 := if (status response =? 401)%Z then clearTokenCache
                       else tc1 in
            (Throw (errorMessage response), tc2)
          else (json response, tc1)
      end
  end.
End ApiFetch.
End Client.

(** ** URLSearchParams *)

Module URLSearchParams.
Definition t := list (string * string).

Definition append (name value : string) (p : t) : t :=
  (p ++ [(name, value)])%list.

Section Serialize.
(** The application/x-www-form-urlencoded percent-encoding of a name or
    a value. *)
Context (encode : string -> string).

Fixpoint toString (p : t) : string :=
  match p with
  | [] => ""
  | (name, value) :: rest =>
      let pair := encode name +:+ "=" +:+ encode value in
      match rest with
      | [] => pair
      | _ :: _ => pair +:+ "&" +:+ toString rest
      end
  end.
End Serialize.
End URLSearchParams.

(** ** lib/api/comments.ts and lib/api/alerts.ts *)

(** What a cached query function hands back: the returned promise, the data
    cache afterwards, and the URLs requested through [apiFetch]. *)
Record Outcome (Any : Type) : Type := mkOutcome {
  returned : result Any;
  cacheAfter : gmap string (CacheEntry Any);
  requests : list string;
}.
Arguments mkOutcome {Any} _ _ _.
Arguments returned {Any} _.
Arguments cacheAfter {Any} _.
Arguments requests {Any} _.

Section Queries.
(** JavaScript numbers, as the query builders use them. *)
Context {Number : Type}.
Context (number_truthy : Number -> bool) (number_toString : Number -> string).
Context (encode : string -> string).
(** The values held by the data cache ([CacheEntry<any>]) and their
    truthiness. *)
Context {Any : Type} (truthy : Any -> bool).
(** [apiFetch<T>(url)] as seen by the query functions. *)
Context (apiFetch : string -> result Any).

Record CommentFilters : Type := mkCommentFilters {
    category : option string;
    sentiment : option string;
    minToxicity : option Number;
    search : option string;
    sortBy : option string;
    order : option string;
    limit : option Number;
    offset : option Number;
  }.

Record AlertFilters : Type := mkAlertFilters {
    unreadOnly : option bool;
    alertType : option string;
    severity : option string;
    alertLimit : option Number;
  }.

(** [if (filters?.f) params.append(name, filters.f)] for a string. *)
Definition appendString (name : string) (v : option string)
    (p : URLSearchParams.t) : URLSearchParams.t :=
  match v with
  | Some x => if truthy_string x then URLSearchParams.append name x p else p
  | None => p
  end.

(** [if (filters?.f) params.append(name, filters.f.toString())]. *)
Definition appendNumber (name : string) (v : option Number)
    (p : URLSearchParams.t) : URLSearchParams.t :=
  match v with
  | Some x => if number_truthy x
              then URLSearchParams.append name (number_toString x) p else p
  | None => p
  end.

(** [if (filters?.f !== undefined) params.append(name, filters.f.toString())]. *)
Definition appendDefined (name : string) (v : option Number)
    (p : URLSearchParams.t) : URLSearchParams.t :=
  match v with
  | Some x => URLSearchParams.append name (number_toString x) p
  | None => p
  end.

Definition commentParams (filters : option CommentFilters) : URLSearchParams.t :=
  let p := [] in
  let p := appendString "category" (filters ≫= category) p in
  let p := appendString "sentiment" (filters ≫= sentiment) p in
  let p := appendDefined "minToxicity" (filters ≫= minToxicity) p in
  let p := appendString "search" (filters ≫= search) p in
  let p := appendString "sortBy" (filters ≫= sortBy) p in
  let p := appendString "order" (filters ≫= order) p in
  let p := appendNumber "limit" (filters ≫= limit) p in
  appendNumber "offset" (filters ≫= offset) p.

Definition alertParams (filters : option AlertFilters) : URLSearchParams.t :=
  let p := [] in
  let p := match filters ≫= unreadOnly with
           | Some true => URLSearchParams.append "unread_only" "true" p
           | _ => p
           end in
  let p := appendString "alert_type" (filters ≫= alertType) p in
  let p := appendString "severity" (filters ≫= severity) p in
  appendNumber "limit" (filters ≫= alertLimit) p.

(** The shared tail of both query functions: read the cache when allowed,
    otherwise fetch, and store the response of an unfiltered query. *)
Definition cachedQuery (now_read now_write : Z) (url cacheKey queryString : string)
    (ttl : Z) (skipCache : bool) (c : gmap string (CacheEntry Any))
    : Outcome Any :=
  let '(cached, c1) :=
    if negb skipCache && negb (truthy_string queryString)
    then DataCache.get now_read cacheKey c
    else (None, c) in
  let hit := match cached with
             | Some v => if truthy v then Some v else None
             | None => None
             end in
  match hit with
  | Some v => mkOutcome (Ok v) c1 []
  | None =>
      match apiFetch url with
      | Throw m => mkOutcome (Throw m) c1 [url]
      | Ok response =>
          let c2 := if negb (truthy_string queryString)
                    then DataCache.set now_write cacheKey response ttl c1
                    else c1 in
          mkOutcome (Ok response) c2 [url]
      end
  end.

Definition getVideoComments (now_read now_write : Z) (videoId : string)
    (filters : option CommentFilters) (skipCache : bool)
    (c : gmap string (CacheEntry Any)) : Outcome Any :=
  let queryString := URLSearchParams.toString encode (commentParams filters) in
  let url := "/api/videos/" +:+ videoId +:+ "/comments"
             +:+ (if truthy_string queryString then "?" +:+ queryString else "") in
  cachedQuery now_read now_write url (CACHE_KEYS.VIDEO_COMMENTS videoId)
              queryString DataCache.defaultTTL skipCache c.

Definition getAlerts (now_read now_write : Z)
    (filters : option AlertFilters) (skipCache : bool)
    (c : gmap string (CacheEntry Any)) : Outcome Any :=
  let queryString := URLSearchParams.toString encode (alertParams filters) in
  let url := "/api/alerts"
             +:+ (if truthy_string queryString then "?" +:+ queryString else "") in
  cachedQuery now_read now_write url "alerts:all"
              queryString (2 * 60 * 1000) skipCache c.

(** A filter field that makes its [if] succeed: a non-empty string, a
    truthy number, [true], and, for [minToxicity], any defined number. *)
Definition string_given (v : option string) : bool :=
  match v with Some x => truthy_string x | None => false end.

Definition number_given (v : option Number) : bool :=
  match v with Some x => number_truthy x | None => false end.

Definition number_defined (v : option Number) : bool :=
  match v with Some _ => true | None => false end.

Definition flag_given (v : option bool) : bool :=
  match v with Some b => b | None => false end.

(** The comments query carries at least one of its filter parameters. *)
Definition carriesCommentFilter (filters : option CommentFilters) : bool :=
  string_given (filters ≫= category) || string_given (filters ≫= sentiment)
  || number_defined (filters ≫= minToxicity) || string_given (filters ≫= search)
  || string_given (filters ≫= sortBy) || string_given (filters ≫= order)
  || number_given (filters ≫= limit) || number_given (filters ≫= offset).

(** The alerts query carries at least one of its filter parameters. *)
Definition carriesAlertFilter (filters : option AlertFilters) : bool :=
  flag_given (filters ≫= unreadOnly) || string_given (filters ≫= alertType)
  || string_given (filters ≫= severity) || number_given (filters ≫= alertLimit).

(** The URL each function requests. *)
Definition commentsUrl (videoId : string) (filters : option CommentFilters)
    : string :=
  let queryString := URLSearchParams.toString encode (commentParams filters) in
  "/api/videos/" +:+ videoId +:+ "/comments"
  +:+ (if truthy_string queryString then "?" +:+ queryString else "").

Definition alertsUrl (filters : option AlertFilters) : string :=
  let queryString := URLSearchParams.toString encode (alertParams filters) in
  "/api/alerts"
  +:+ (if truthy_string queryString then "?" +:+ queryString else "").
End Queries.

(** ** JSON objects as the pages read them *)

(** A parsed JSON object with string-valued members; [member] is the
    property access, [None] standing for [undefined]. *)
Definition JsonObject := list (string * string).

Fixpoint member (name : string) (o : JsonObject) : option string :=
  match o with
  | [] => None
  | (k, v) :: rest => if String.eqb k name then Some v else member name rest
  end.

(** Interpolation of a possibly undefined string into a template literal. *)
Definition interpolate (v : option string) : string :=
  match v with Some x => x | None => "undefined" end.

(** [String.prototype.trim] on ASCII white space (TAB, LF, VT, FF, CR, SP). *)
Definition is_space (a : ascii) : bool :=
  let n := nat_of_ascii a in
  ((9 <=? n) && (n <=? 13))%nat || (n =? 32)%nat.

Fixpoint trimStart (s : string) : string :=
  match s with
  | EmptyString => EmptyString
  | String a rest => if is_space a then trimStart rest else s
  end.

Fixpoint trimEnd (s : string) : string :=
  match s with
  | EmptyString => EmptyString
  | String a rest =>
      match trimEnd rest with
      | EmptyString => if is_space a then EmptyString else String a EmptyString
      | t => String a t
      end
  end.

Definition trim (s : string) : string := trimEnd (trimStart s).

(** [String.prototype.toLowerCase] on ASCII letters. *)
Definition to_lower (a : ascii) : ascii :=
  let n := nat_of_ascii a in
  if ((65 <=? n) && (n <=? 90))%nat then ascii_of_nat (n + 32) else a.

Fixpoint case_fold (s : string) : string :=
  match s with
  | EmptyString => EmptyString
  | String a rest => String (to_lower a) (case_fold rest)
  end.

(** [toast.success] and [toast.error] of the sonner library, recorded in
    the order they are raised. *)
Inductive Toast : Type :=
| ToastSuccess (message : string)
| ToastError (message : string).

(** ** lib/api/videos.ts: the job status record *)

Module Videos.
(** [status: 'queued' | 'processing' | 'completed' | 'failed']. *)
Inductive Status : Type := queued | processing | completed | failed.



Definition Status_eqb (a b : Status) : bool :=
  match a, b with
  | queued, queued | processing, processing
  | completed, completed | failed, failed => true
  | _, _ => false
  end.

Record JobStatus : Type := mkJobStatus {
    jobId : string;
    videoId : string;
    status : Status;
    progress : Z;
    totalComments : Z;
    processedComments : Z;
    error : option string;
    createdAt : string;
    updatedAt : string;
  }.
End Videos.

(** ** pages/Analyzing.tsx: the job progress view *)

Module Analyzing.
Inductive StepStatus : Type := pending | inProgress | completed.

Record Step : Type := mkStep {
    id : Z;
    label : string;
    stepStatus : StepStatus;
    stepProgress : option string;
  }.

Definition initialSteps : list Step :=
  [ mkStep 1 "Connected to YouTube" pending None;
    mkStep 2 "Fetched video metadata" pending None;
    mkStep 3 "Downloading comments" pending None;
    mkStep 4 "AI analyzing sentiment" pending None;
    mkStep 5 "Categorizing comments" pending None;
    mkStep 6 "Extracting questions" pending None ].

Definition setStatus (st : StepStatus) (s : Step) : Step :=
  mkStep (id s) (label s) st (stepProgress s).

Definition setProgress (p : string) (s : Step) : Step :=
  mkStep (id s) (label s) (stepStatus s) (Some p).

(** [updateSteps]. [newSteps = [...steps]] copies the array but not the
    six step objects, so every assignment below writes to the objects
    held by the component; [steps] here is that shared store. *)
Definition updateSteps (progress processed total : Z) (steps : list Step)
    : list Step :=
  let s := steps in
  let s := if progress >=? 5 then alter (setStatus completed) 0%nat s else s in
  let s := if progress >=? 10 then alter (setStatus completed) 1%nat s else s in
  let s := if (progress >=? 15) && (progress <? 70) then
             let s := alter (setStatus inProgress) 2%nat s in
             if (processed >? 0) && (total >? 0) then
               alter (setProgress (number_to_string processed +:+ "/"
                                   +:+ number_to_string total)) 2%nat s
             else s
           else s in
  let s := if progress >=? 70 then
             alter (setProgress (number_to_string total +:+ "/"
                                 +:+ number_to_string total)) 2%nat
               (alter (setStatus completed) 2%nat s)
           else s in
  let s := if (progress >=? 75) && (progress <? 85)
           then alter (setStatus inProgress) 3%nat s else s in
  let s := if progress >=? 85 then alter (setStatus completed) 3%nat s else s in
  let s := if (progress >=? 85) && (progress <? 95)
           then alter (setStatus inProgress) 4%nat s else s in
  let s := if progress >=? 95 then alter (setStatus completed) 4%nat s else s in
  let s := if (progress >=? 95) && (progress <? 100)
           then alter (setStatus inProgress) 5%nat s else s in
  let s := if progress >=? 100 then alter (setStatus completed) 5%nat s else s in
  s.

(** The status shown for the third step, "Downloading comments". *)
Definition downloadStatus (steps : list Step) : option StepStatus :=
  stepStatus <$> steps !! 2%nat.

(** The component's state together with the effects it has raised:
    [polling] is true while the interval set up by the effect is live,
    [navigations] lists the routes scheduled with [setTimeout]. *)
Record Page : Type := mkPage {
    progress : Z;
    status : Videos.Status;
    steps : list Step;
    videoId : option string;
    polling : bool;
    toasts : list Toast;
    navigations : list string;
  }.


(** One run of [pollStatus], given what [getJobStatus(jobId)] settled
    with. *)
Definition pollStatus (obs : result Videos.JobStatus) (pg : Page) : Page :=
  match obs with
  | Ok jobStatus =>
      let pg :=
        mkPage (Videos.progress jobStatus) (Videos.status jobStatus)
               (updateSteps (Videos.progress jobStatus)
                            (Videos.processedComments jobStatus)
                            (Videos.totalComments jobStatus) (steps pg))
               (Some (Videos.videoId jobStatus))
               (polling pg) (toasts pg) (navigations pg) in
      let pg :=
        if Videos.Status_eqb (Videos.status jobStatus) Videos.completed then
          mkPage (progress pg) (status pg) (steps pg) (videoId pg) false
                 (toasts pg ++ [ToastSuccess "Analysis complete!"])%list
                 (navigations pg ++
                    [if truthy_string (Videos.videoId jobStatus)
                     then "/dashboard/videos/" +:+ Videos.videoId jobStatus
                     else "/dashboard/videos"])%list
        else pg in
      if Videos.Status_eqb (Videos.status jobStatus) Videos.failed then
        mkPage (progress pg) (status pg) (steps pg) (videoId pg) false
               (toasts pg ++
                  [ToastError
                     (match Videos.error jobStatus with
                      | Some e => if truthy_string e then e else "Analysis failed"
                      | None => "Analysis failed"
                      end)])%list
               (navigations pg ++ ["/dashboard/videos/add"])%list
      else pg
  | Throw message =>
      if includes message "404" || includes message "not found" then pg
      else mkPage (progress pg) (status pg) (steps pg) (videoId pg) false
                  (toasts pg ++ [ToastError "Failed to get analysis status"])%list
                  (navigations pg)
  end.

(** A firing of the interval: nothing runs once it has been cleared. *)
Definition tick (obs : result Videos.JobStatus) (pg : Page) : Page :=
  if polling pg then pollStatus obs pg else pg.

(** The view after a sequence of polls, oldest first. *)
Definition run (observations : list (result Videos.JobStatus)) (pg : Page)
    : Page :=
  fold_left (fun p obs => tick obs p) observations pg.
End Analyzing.

(** ** pages/dashboard/AddVideo.tsx: the submission flow *)

Module AddVideo.
Record View : Type := mkView {
    urlError : string;
    isValidating : bool;
    isAnalyzing : bool;
    toasts : list Toast;
    navigated : option string;
  }.

Definition initialView : View := mkView "" false false [] None.

Definition setUrlError (e : string) (v : View) : View :=
  mkView e (isValidating v) (isAnalyzing v) (toasts v) (navigated v).
Definition setIsValidating (b : bool) (v : View) : View :=
  mkView (urlError v) b (isAnalyzing v) (toasts v) (navigated v).
Definition setIsAnalyzing (b : bool) (v : View) : View :=
  mkView (urlError v) (isValidating v) b (toasts v) (navigated v).
Definition toast (t : Toast) (v : View) : View :=
  mkView (urlError v) (isValidating v) (isAnalyzing v) (toasts v ++ [t])
         (navigated v).
Definition navigate (route : string) (v : View) : View :=
  mkView (urlError v) (isValidating v) (isAnalyzing v) (toasts v) (Some route).

(** The [catch] block of [handleAnalyze]. *)
Definition onError (message : string) (v : View) : View :=
  let v :=
    if includes message "403" || includes message "limit" then
      setUrlError "Plan limit reached. Upgrade to continue."
        (toast (ToastError
           "You've reached your plan limit. Please upgrade to analyze more videos.") v)
    else if includes message "404" || includes message "not found" then
      setUrlError "Video not found or comments are disabled" v
    else if includes message "Invalid" then
      setUrlError message v
    else
      setUrlError "Something went wrong. Please try again."
        (toast (ToastError "Failed to analyze video. Please try again.") v) in
  setIsAnalyzing false (setIsValidating false v).

Section Flow.
(** [patterns.some(pattern => pattern.test(url))] for the three
    YouTube URL expressions. *)
Context (matchesVideoUrl : string -> bool).
(** What [validateVideoUrl(url)] and [analyzeVideo(url)] settle with. *)
Context (validateVideoUrl analyzeVideo : string -> result JsonObject).

Definition validateYouTubeUrl (url : string) (v : View) : bool * View :=
  if includes url "list=" || includes url "/playlist" then
    (false, setUrlError
       "Playlist URLs are not supported. Please use a single video URL." v)
  else if includes url "/channel/" || includes url "/c/" || includes url "/@" then
    (false, setUrlError
       "Channel URLs are not supported. Please use a video URL." v)
  else
    let isValid := matchesVideoUrl url in
    (isValid,
     if isValid then v
     else setUrlError "Please enter a valid YouTube video URL" v).

Definition handleAnalyze (videoUrl : string) (v : View) : View :=
  let v := setUrlError "" v in
  if negb (truthy_string (trim videoUrl)) then
    setUrlError "Please enter a YouTube video URL" v
  else
    let '(valid, v) := validateYouTubeUrl videoUrl v in
    if negb valid then v
    else
      let v := setIsValidating true v in
      match validateVideoUrl videoUrl with
      | Throw message => onError message v
      | Ok videoData =>
          let v := toast (ToastSuccess
                     ("Video found: " +:+ interpolate (member "title" videoData))) v in
          let v := setIsAnalyzing true (setIsValidating false v) in
          match analyzeVideo videoUrl with
          | Throw message => onError message v
          | Ok response =>
              let v := toast (ToastSuccess "Analysis started!") v in
              navigate ("/analyzing?jobId="
                        +:+ interpolate (member "jobId" response)) v
          end
      end.
End Flow.
End AddVideo.

(** ** lib/api/videos.ts: the two calls of the submission flow *)

Module VideosApi.
Section Calls.
Context (API_URL : string).
Context (fetch : string -> Client.RequestInit -> result (Client.Response JsonObject)).
(** [JSON.stringify] of an object with string members. *)
Context (JSON_stringify : JsonObject -> string).

Definition post (youtubeUrl : string) : Client.RequestInit :=
  Client.mkInit (Some "POST") (Some (JSON_stringify [("youtubeUrl", youtubeUrl)])) ∅.

Definition validateVideoUrl (now : Z) (user : Client.CurrentUser)
    (youtubeUrl : string) (tc : option Client.TokenCache)
    : result JsonObject * option Client.TokenCache :=
  Client.apiFetch (member "detail") API_URL fetch now user
                  "/api/videos/validate" (post youtubeUrl) tc.

Definition analyzeVideo (now : Z) (user : Client.CurrentUser)
    (youtubeUrl : string) (tc : option Client.TokenCache)
    : result JsonObject * option Client.TokenCache :=
  Client.apiFetch (member "detail") API_URL fetch now user
                  "/api/videos/analyze" (post youtubeUrl) tc.

(** [handleAnalyze] of the Add Video page run against these calls: the
    validation call is made at [now1], the analysis call, if reached, at
    [now2], the token cache being threaded from one to the other. *)
Definition handleAnalyze (matchesVideoUrl : string -> bool) (now1 now2 : Z)
    (user : Client.CurrentUser) (tc : option Client.TokenCache)
    (videoUrl : string) (v : AddVideo.View) : AddVideo.View :=
  let validated := validateVideoUrl now1 user videoUrl tc in
  AddVideo.handleAnalyze matchesVideoUrl
    (fun _ => fst validated)
    (fun url => fst (analyzeVideo now2 user url (snd validated)))
    videoUrl v.
End Calls.
End VideosApi.

(** A backend that accepts the validation call and refuses the analysis
    call with [refusal]. *)
Definition refusingBackend (API_URL : string)
    (refusal : Client.Response JsonObject) (url : string)
    (init : Client.RequestInit) : result (Client.Response JsonObject) :=
  if String.eqb url (API_URL +:+ "/api/videos/analyze") then Ok refusal
  else Ok (Client.mkResponse true 200 (Ok [("title", "My video")])).



(** ** pages/onboarding/ChoosePlan.tsx: the plan table *)

Module ChoosePlan.
Inductive PlanType : Type := free | starter | pro | business.

Record Plan : Type := mkPlan {
    id : PlanType;
    name : string;
    price : Z;
    videosPerMonth : Z;
    aiQuestionsPerMonth : Z;
  }.

Definition plans : list Plan :=
  [ mkPlan free "Free" 0 1 3;
    mkPlan starter "Starter" 12 50 100;
    mkPlan pro "Pro" 27 100 500;
    mkPlan business "Business" 58 999 9999 ].

Definition PlanType_eqb (a b : PlanType) : bool :=
  match a, b with
  | free, free | starter, starter | pro, pro | business, business => true
  | _, _ => false
  end.

(** [plans.find(p => p.id === planId)]. *)
Definition find (planId : PlanType) : option Plan :=
  List.find (fun p => PlanType_eqb (id p) planId) plans.

Definition planName (p : PlanType) : string :=
  match p with
  | free => "free" | starter => "starter" | pro => "pro"
  | business => "business"
  end.
End ChoosePlan.

(** ** components/video-details/AskAISection.tsx *)

Module AskAISection.
Definition suggestedQuestions : list string :=
  [ "What are the main themes in these comments?";
    "What questions are viewers asking most?";
    "What feedback do viewers have about the video?";
    "Are there any technical issues mentioned?";
    "What do viewers like most about this video?" ].

Inductive Message : Type :=
  | user (content : string)
  | ai (content : string).

Record AskAIRequest : Type := mkRequest {
    reqVideoId : string;
    reqQuestion : string;
    reqConversationId : option string;
  }.

Record AskAIResponse : Type := mkAnswer {
    answer : string;
    conversationId : string;
    cached : bool;
  }.

Record Chat : Type := mkChat {
    question : string;
    messages : list Message;
    loading : bool;
    chatConversationId : option string;
    toasts : list Toast;
    asked : list AskAIRequest;
  }.


(** [handleSuggestedQuestion(q)] fills the input. *)
Definition handleSuggestedQuestion (q : string) (c : Chat) : Chat :=
  mkChat q (messages c) (loading c) (chatConversationId c) (toasts c) (asked c).


Section Ask.
(** What [askAI(request)] settles with. An [Error] thrown by [apiFetch] has
    no [response] member, so the [catch] block's
    [err.response?.data?.detail || 'Failed to get AI response'] is the
    fallback text. *)
Context (askAI : AskAIRequest -> result AskAIResponse).

End Ask.
End AskAISection.

(** ** middleware/rate_limiter.py (as listed in the rate-limiting notes) *)

Module RateLimiter.
(** The Python values a user dictionary holds under ['userId']. *)
Inductive PyValue : Type :=
  | PyNone
  | PyStr (s : string).

Definition py_truthy (v : PyValue) : bool :=
  match v with
  | PyNone => false
  | PyStr s => truthy_string s
  end.

Definition PyDict := list (string * PyValue).

(** [d.get(key)]: [None] when the key is missing. *)
Fixpoint dict_get (key : string) (d : PyDict) : PyValue :=
  match d with
  | [] => PyNone
  | (k, v) :: rest => if String.eqb k key then v else dict_get key rest
  end.

(** A request: [request.state.user] may be missing as an attribute
    (outer [None]), be [None] (inner [None]) or be the dictionary set by
    the authentication middleware; [remote_address] is what
    [get_remote_address(request)] returns. *)
Record Request : Type := mkRequest {
    state_user : option (option PyDict);
    remote_address : string;
  }.

(** [hasattr(request.state, 'user') and request.state.user]: the
    dictionary when the conjunction is truthy. *)
Definition attached_user (request : Request) : option PyDict :=
  match state_user request with
  | Some (Some (entry :: rest)) => Some (entry :: rest)
  | _ => None
  end.

(** Formatting of a value inside an f-string. *)
Definition py_format (v : PyValue) : string :=
  match v with
  | PyNone => "None"
  | PyStr s => s
  end.

Definition get_user_identifier (request : Request) : string :=
  let fallback := "ip:" +:+ remote_address request in
  match attached_user request with
  | Some user =>
      let user_id := dict_get "userId" user in
      if py_truthy user_id then "user:" +:+ py_format user_id
      else fallback
  | None => fallback
  end.

(** The [Limiter(...)] configuration. *)
Record Limiter : Type := mkLimiter {
    key_func : Request -> string;
    default_limits : list string;
    storage_uri : string;
    strategy : string;
    headers_enabled : bool;
  }.

Definition limiter : Limiter :=
  mkLimiter get_user_identifier ["100/minute"] "memory://" "fixed-window" true.
End RateLimiter.

(** * Backend components described by the specification *)

(** ** Sync Orchestrator *)

Module Orchestrator.
Local Open Scope nat_scope.

(** Modelled from the spec: the states of a sync job (section 4.1:
    "states Queued → Fetching → Analyzing → Finalizing → Completed, and a
    terminal Failed"); the backend's job model is not among the
    sources. *)
Inductive State : Type :=
  | Queued | Fetching | Analyzing | Finalizing | Completed | Failed.

Definition State_eqb (a b : State) : bool :=
  match a, b with
  | Queued, Queued | Fetching, Fetching | Analyzing, Analyzing
  | Finalizing, Finalizing | Completed, Completed | Failed, Failed => true
  | _, _ => false
  end.



(** Modelled from the spec: the fields of section 3's SyncJob that the
    transitions read or write; the backend's job model is not among the
    sources. *)
Record SyncJob : Type := mkJob {
    state : State;
    progressPercent : nat;
    commentsTotal : nat;
    commentsProcessed : nat;
    errorDetail : option string;
  }.

(** Modelled from the spec: the occurrences that section 4.1 attaches a
    transition to (worker pickup, a page consumed by the Fetch Cursor, no
    more pages, every fetched comment analysed, finalisation done, an
    unrecoverable error); the backend's sync service is not among the
    sources. *)
Inductive Event : Type :=
  | WorkerPickup
  | PageConsumed (comments : nat)
  | NoMorePages
  | AllAnalyzed
  | Finalized
  | Unrecoverable (userSafeMessage : string).

(** Modelled from the spec: the progress rule of the fetch phase, which is
    part of the backend's sync service and not among the sources:
    "progressPercent advances proportionally to
    commentsProcessed/commentsTotal within the 10–70 range while
    fetching". The share is rounded down and capped at the top of the
    range; a video announcing no comments stays at the bottom. *)
Definition fetchProgress (processed total : nat) : nat :=
  if total =? 0 then 10
  else 10 + Nat.min 60 (60 * processed / total).

(** Modelled from the spec: submission of a job, which is part of the
    backend's sync service and not among the sources. The job starts in
    [Queued]; its progress starts at 0 (the build notes create the job
    with status 'queued' and progress 0). *)
Definition submit (total : nat) : SyncJob := mkJob Queued 0 total 0 None.

(** Modelled from the spec: the transitions of the Sync Orchestrator
    (section 4.1), which is part of the backend's sync service and not
    among the sources. "Queued → Fetching: on worker pickup; sets
    progressPercent=10. Fetching → Analyzing: once the Fetch Cursor
    reports no more pages. Analyzing → Finalizing: once all fetched
    comments have an Analysis; progress 70–95. Finalizing → Completed:
    progress = 100. Any step → Failed: on an unrecoverable error;
    errorDetail is set to a user-safe message." The analysis phase is
    entered at 70 and left at 95, the bounds the spec gives for it. An
    event that is not enabled in the current state leaves the job as it
    is. *)
Definition step (e : Event) (j : SyncJob) : SyncJob :=
  match state j, e with
  | Queued, WorkerPickup =>
      mkJob Fetching 10 (commentsTotal j) (commentsProcessed j) (errorDetail j)
  | Fetching, PageConsumed n =>
      let processed := commentsProcessed j + n in
      mkJob Fetching (fetchProgress processed (commentsTotal j))
            (commentsTotal j) processed (errorDetail j)
  | Fetching, NoMorePages =>
      mkJob Analyzing 70 (commentsTotal j) (commentsProcessed j) (errorDetail j)
  | Analyzing, AllAnalyzed =>
      mkJob Finalizing 95 (commentsTotal j) (commentsProcessed j) (errorDetail j)
  | Finalizing, Finalized =>
      mkJob Completed 100 (commentsTotal j) (commentsProcessed j) (errorDetail j)
  | (Queued | Fetching | Analyzing | Finalizing), Unrecoverable msg =>
      mkJob Failed (progressPercent j) (commentsTotal j) (commentsProcessed j)
            (Some msg)
  | _, _ => j
  end.

(** The job after a sequence of events, oldest first. *)
Definition run (events : list Event) (j : SyncJob) : SyncJob :=
  fold_left (fun job e => step e job) events j.



(** What holds of every job that [submit] and [step] produce: the progress
    each state comes with. *)
Definition consistent (j : SyncJob) : Prop :=
  match state j with
  | Queued => progressPercent j = 0
  | Fetching =>
      10 <= progressPercent j
      <= fetchProgress (commentsProcessed j) (commentsTotal j)
  | Analyzing => progressPercent j = 70
  | Finalizing => progressPercent j = 95
  | Completed => progressPercent j = 100
  | Failed => progressPercent j <= 95
  end.
End Orchestrator.

(** ** Answer Cache *)

Module AnswerCache.
(** Every run of white space becomes one space. *)
Fixpoint collapse (s : string) : string :=
  match s with
  | EmptyString => EmptyString
  | String a rest =>
      if is_space a then
        match rest with
        | EmptyString => String " " EmptyString
        | String b _ =>
            if is_space b then collapse rest else String " " (collapse rest)
        end
      else String a (collapse rest)
  end.

(** Modelled from the spec: the canonical form of a question, computed by
    the backend's cache service, which is not among the sources:
    "canonicalizes the question (case-fold, trim, collapse
    whitespace)". *)
Definition canonicalize (question : string) : string :=
  collapse (trim (case_fold question)).

(** Modelled from the spec: the fixed list that [warm] runs, held by the
    backend's sync service, which is not among the sources; these are the
    five questions section 4.6 names. *)
Definition canonicalQuestions : list string :=
  [ "what are people complaining about";
    "what questions are people asking";
    "what do people love most";
    "what should I make next";
    "show me toxic comments" ].

(** The five common questions of the build notes (instructions-lently.md,
    step 19), kept for comparison. *)
Definition commonQuestions : list string :=
  [ "What are people complaining about?";
    "What questions are people asking?";
    "What do people love most?";
    "What content should I make next?";
    "Show me toxic comments" ].

(** Modelled from the spec: the stored answers of section 4.6, kept by the
    backend, which is not among the sources: [Video.preGeneratedAnswers]
    and the secondary, lazily populated cache, both keyed by video and
    canonical question; [aiCalls] counts the calls made to the
    generative-AI collaborator. *)
Record Store : Type := mkStore {
    preGeneratedAnswers : gmap (string * string) string;
    lazyAnswers : gmap (string * string) string;
    aiCalls : nat;
  }.

Record Reply : Type := mkReply { answer : string; cached : bool }.

Section WithAI.
(** The Context Pruner followed by the AI answer call, for a video and a
    question. *)
Context (answerQuestion : string -> string -> string).

(** Modelled from the spec: [lookup] of section 4.6, part of the
    backend's cache service, which is not among the sources: "checks
    Video.preGeneratedAnswers first, then a secondary lazily-populated
    cache keyed the same way; a hit returns immediately with a
    cached=true flag and performs no AI call". *)
Definition lookup (videoRef question : string) (st : Store) : option Reply :=
  let key := (videoRef, canonicalize question) in
  match preGeneratedAnswers st !! key with
  | Some a => Some (mkReply a true)
  | None =>
      match lazyAnswers st !! key with
      | Some a => Some (mkReply a true)
      | None => None
      end
  end.

(** Modelled from the spec: one question of [warm], part of the
    backend's sync service, which is not among the sources: "through
    the Context Pruner and a single AI answer call each, storing
    results into Video.preGeneratedAnswers". *)
Definition warmOne (videoRef : string) (st : Store) (question : string)
    : Store :=
  mkStore (<[(videoRef, canonicalize question) :=
               answerQuestion videoRef question]> (preGeneratedAnswers st))
          (lazyAnswers st) (S (aiCalls st)).

(** Modelled from the spec: [warm] of section 4.6, as above: "runs a
    fixed list of canonical questions". *)
Definition warm (videoRef : string) (st : Store) : Store :=
  fold_left (warmOne videoRef) canonicalQuestions st.

(** Modelled from the spec: the question-answering path of section 2,
    part of the backend's chat service, which is not among the sources:
    "Answer Cache checked first → on miss, a single AI call answers the
    question → result cached". *)
Definition answerPath (videoRef question : string) (st : Store)
    : Reply * Store :=
  match lookup videoRef question st with
  | Some r => (r, st)
  | None =>
      let a := answerQuestion videoRef question in
      (mkReply a false,
       mkStore (preGeneratedAnswers st)
               (<[(videoRef, canonicalize question) := a]> (lazyAnswers st))
               (S (aiCalls st)))
  end.
End WithAI.
End AnswerCache.

(** ** Instances used to run the models on concrete inputs *)

(** Integer-valued JavaScript numbers: zero is the only falsy one. *)
Definition int_truthy (n : Z) : bool := negb (n =? 0).

(** An encoder for names and values that need no escaping. *)
Definition plain (s : string) : string := s.

(** The token [getAuthHeaders] leaves in the cache once it has produced
    headers from a freshly obtained token. *)
Definition freshToken (now : Z) (tok : string) : Client.TokenCache :=
  Client.mkToken tok (now + 55 * 60 * 1000).

(** * Further client code *)

(** ** The cached getters of lib/api/videos.ts and lib/api/users.ts, and the
       writers that go with them *)

Module CachedApi.
Section Calls.
(** The values held by the data cache and their truthiness. *)
Context {Any : Type} (truthy : Any -> bool).
(** [apiFetch<T>(endpoint, options)] as seen by the callers. *)
Context (apiFetch : string -> Client.RequestInit -> result Any).
(** [JSON.stringify] of an object with string members. *)
Context (JSON_stringify : JsonObject -> string).

(** The body that [getUserVideos], [getVideoDetails] and [getUserProfile]
    share: read the cache unless [skipCache], return a truthy hit, otherwise
    fetch, store with the default TTL, and return the response. *)
Definition cachedGet (now_read now_write : Z) (url cacheKey : string)
    (skipCache : bool) (c : gmap string (CacheEntry Any)) : Outcome Any :=
  let '(cached, c1) :=
    if negb skipCache then DataCache.get now_read cacheKey c else (None, c) in
  let hit := match cached with
             | Some v => if truthy v then Some v else None
             | None => None
             end in
  match hit with
  | Some v => mkOutcome (Ok v) c1 []
  | None =>
      match apiFetch url Client.noOptions with
      | Throw m => mkOutcome (Throw m) c1 [url]
      | Ok response =>
          mkOutcome (Ok response)
                    (DataCache.set_default now_write cacheKey response c1) [url]
      end
  end.

Definition getUserVideos (now_read now_write : Z) (skipCache : bool)
    (c : gmap string (CacheEntry Any)) : Outcome Any :=
  cachedGet now_read now_write "/api/videos" CACHE_KEYS.USER_VIDEOS skipCache c.

Definition getVideoDetails (now_read now_write : Z) (videoId : string)
    (skipCache : bool) (c : gmap string (CacheEntry Any)) : Outcome Any :=
  cachedGet now_read now_write ("/api/videos/" +:+ videoId)
            (CACHE_KEYS.VIDEO_DETAILS videoId) skipCache c.

Definition getUserProfile (now_read now_write : Z) (skipCache : bool)
    (c : gmap string (CacheEntry Any)) : Outcome Any :=
  cachedGet now_read now_write "/api/users/profile" CACHE_KEYS.USER_PROFILE
            skipCache c.

(** [checkUserExists]: any rejection of the call is answered [false]. *)
Definition checkUserExists : bool :=
  match apiFetch "/api/users/profile" Client.noOptions with
  | Ok _ => true
  | Throw _ => false
  end.

Definition initializeUser (now_write : Z) (c : gmap string (CacheEntry Any))
    : Outcome Any :=
  match apiFetch "/api/users/init" (Client.mkInit (Some "POST") None ∅) with
  | Throw m => mkOutcome (Throw m) c ["/api/users/init"]
  | Ok profile =>
      mkOutcome (Ok profile)
                (DataCache.set_default now_write CACHE_KEYS.USER_PROFILE profile c)
                ["/api/users/init"]
  end.

Definition updateUserPlan (now_write : Z) (plan : ChoosePlan.PlanType)
    (c : gmap string (CacheEntry Any)) : Outcome Any :=
  let init :=
    Client.mkInit (Some "PUT")
      (Some (JSON_stringify [("plan", ChoosePlan.planName plan)]))
      (<["Content-Type" := "application/json"]> ∅) in
  match apiFetch "/api/users/plan" init with
  | Throw m => mkOutcome (Throw m) c ["/api/users/plan"]
  | Ok profile =>
      mkOutcome (Ok profile)
                (DataCache.set_default now_write CACHE_KEYS.USER_PROFILE profile
                   (DataCache.invalidate CACHE_KEYS.USER_PROFILE c))
                ["/api/users/plan"]
  end.

(** lib/api/alerts.ts: [markAlertRead], [markAllAlertsRead] and
    [deleteAlert] await their call and then drop the cached alerts. The
    value the call resolves with is discarded. *)
Definition alertWrite (url : string) (init : Client.RequestInit)
    (c : gmap string (CacheEntry Any))
    : result unit * gmap string (CacheEntry Any) :=
  match apiFetch url init with
  | Throw m => (Throw m, c)
  | Ok _ => (Ok tt, DataCache.invalidate "alerts:all" c)
  end.

Definition markAlertRead (alertId : string) (c : gmap string (CacheEntry Any)) :=
  alertWrite ("/api/alerts/" +:+ alertId +:+ "/read")
             (Client.mkInit (Some "PUT") None ∅) c.

Definition markAllAlertsRead (c : gmap string (CacheEntry Any)) :=
  alertWrite "/api/alerts/mark-all-read" (Client.mkInit (Some "POST") None ∅) c.

Definition deleteAlert (alertId : string) (c : gmap string (CacheEntry Any)) :=
  alertWrite ("/api/alerts/" +:+ alertId)
             (Client.mkInit (Some "DELETE") None ∅) c.
End Calls.
End CachedApi.

(** ** lib/api/comments.ts: cache invalidation *)

Definition invalidateCommentsCache {T} (videoId : option string)
    (c : gmap string (CacheEntry T)) : gmap string (CacheEntry T) :=
  let c :=
    match videoId with
    | Some v =>
        if truthy_string v
        then DataCache.invalidate (CACHE_KEYS.VIDEO_COMMENTS v) c
        else DataCache.invalidatePattern "comments:" c
    | None => DataCache.invalidatePattern "comments:" c
    end in
  DataCache.invalidate CACHE_KEYS.ALL_COMMENTS c.

(** ** lib/firebase/auth-context.tsx: sign-out *)

Module AuthContext.
Record Session (T : Type) : Type := mkSession {
    idToken : option string;
    tokenCache : option Client.TokenCache;
    dataCache : gmap string (CacheEntry T);
    toasts : list Toast;
  }.
Arguments mkSession {T} _ _ _ _.
Arguments idToken {T} _.
Arguments tokenCache {T} _.
Arguments dataCache {T} _.
Arguments toasts {T} _.

(** [signOut], given what [firebaseSignOut(auth)] settles with: the
    outcome (it rethrows on failure) and the session afterwards. *)
Definition signOut {T} (firebaseSignOut : result unit) (s : Session T)
    : result unit * Session T :=
  match firebaseSignOut with
  | Ok _ =>
      (Ok tt,
       mkSession None Client.clearTokenCache (DataCache.clear (dataCache s))
                 (toasts s ++ [ToastSuccess "Signed out successfully"]))
  | Throw m =>
      (Throw m,
       mkSession (idToken s) (tokenCache s) (dataCache s)
                 (toasts s ++ [ToastError "Failed to sign out"]))
  end.
End AuthContext.

(** ** hooks/useComments.ts: the call made for each video *)

Section UseComments.
Context {Number : Type}.
Context (number_truthy : Number -> bool) (number_toString : Number -> string).
Context (encode : string -> string).
Context {Any : Type} (truthy : Any -> bool).
Context (apiFetch : string -> result Any).
(** The number 100 and the object
    [{ comments: [], total: 0, page: 1, limit: 100, hasMore: false }]. *)
Context (hundred : Number) (emptyPage : Any).

(** [Object.keys(filters).length > 0]. *)
Definition hasFilters (filters : @CommentFilters Number) : bool :=
  match category filters, sentiment filters, minToxicity filters,
        search filters, sortBy filters, order filters,
        limit filters, offset filters with
  | None, None, None, None, None, None, None, None => false
  | _, _, _, _, _, _, _, _ => true
  end.

(** [{ ...filters, limit: 100 }]. *)
Definition withLimit (filters : @CommentFilters Number) : @CommentFilters Number :=
  mkCommentFilters (category filters) (sentiment filters) (minToxicity filters)
                   (search filters) (sortBy filters) (order filters)
                   (Some hundred) (offset filters).

(** The promise built for one video inside [fetchComments]:
    [getVideoComments(video.id, {...filters, limit: 100},
    forceRefresh && !hasFilters).catch(() => emptyPage)]. *)
Definition commentsOfVideo (now_read now_write : Z) (videoId : string)
    (filters : @CommentFilters Number) (forceRefresh : bool)
    (c : gmap string (CacheEntry Any)) : Outcome Any :=
  let o := getVideoComments number_truthy number_toString encode truthy apiFetch
             now_read now_write videoId (Some (withLimit filters))
             (forceRefresh && negb (hasFilters filters)) c in
  match returned o with
  | Ok _ => o
  | Throw _ => mkOutcome (Ok emptyPage) (cacheAfter o) (requests o)
  end.
End UseComments.

(** ** pages/Analyzing.tsx: what the list of steps shows *)

Definition statuses (steps : list Analyzing.Step) : list Analyzing.StepStatus :=
  map Analyzing.stepStatus steps.

(** A step that has been started. *)
Definition started (st : Analyzing.StepStatus) : bool :=
  match st with
  | Analyzing.pending => false
  | _ => true
  end.

(** The progress reported by each poll of a sequence is at least the one
    before. *)
Fixpoint rising (previous : Z) (reports : list Z) : Prop :=
  match reports with
  | [] => True
  | p :: rest => previous <= p /\ rising p rest
  end.

(** [updateSteps] for each progress report in turn (processed and total
    comments as reported with it). *)
Definition updateAll (reports : list (Z * Z * Z)) (steps : list Analyzing.Step)
    : list Analyzing.Step :=
  fold_left (fun s r => Analyzing.updateSteps (fst (fst r)) (snd (fst r)) (snd r) s)
            reports steps.

(** What a view that has seen a single report of [progress] shows. *)
Definition freshStatuses (progress : Z) : list Analyzing.StepStatus :=
  statuses (Analyzing.updateSteps progress 0 0 Analyzing.initialSteps).

(** The progress of a report (progress, processed comments, total
    comments). *)
Definition reported (r : Z * Z * Z) : Z := fst (fst r).

(** What every step keeps across [updateSteps]: its id and label, and
    having been started. *)
Definition stepKept (before after : Analyzing.Step) : Prop :=
  Analyzing.id after = Analyzing.id before
  /\ Analyzing.label after = Analyzing.label before
  /\ (started (Analyzing.stepStatus before) = true ->
      started (Analyzing.stepStatus after) = true).


(** * Properties *)

(** ** The helpers on concrete inputs *)

Example includes_inside : includes "comments:abc" "comments:" = true.
Proof. reflexivity. Qed.

(** The user-videos key does not contain ['video:'], which is why
    [invalidateVideosCache] drops it by name. *)
Example includes_user_videos : includes CACHE_KEYS.USER_VIDEOS "video:" = false.
Proof. reflexivity. Qed.

Example trim_both_ends : trim "  what do people love most " = "what do people love most".
Proof. reflexivity. Qed.

Example canonicalize_question :
  AnswerCache.canonicalize "  What   do people LOVE most " = "what do people love most".
Proof. reflexivity. Qed.

Example number_to_string_status : "HTTP " +:+ number_to_string 403 = "HTTP 403".
Proof. reflexivity. Qed.

Example fetchProgress_quarter : Orchestrator.fetchProgress 20 80 = 25%nat.
Proof. reflexivity. Qed.

Example toString_two_params :
  URLSearchParams.toString plain [("category", "question"); ("limit", "100")]
  = "category=question&limit=100".
Proof. reflexivity. Qed.

Section DataCacheFacts.
Context {T : Type}.
Implicit Types (c : gmap string (CacheEntry T)) (key k p : string).

Lemma invalidatePattern_keys_lookup p keys c k :
  DataCache.invalidatePattern_keys p keys c !! k =
    if includes k p && bool_decide (k ∈ keys) then None else c !! k.
Proof.
  unfold DataCache.invalidatePattern_keys.
  revert c. induction keys as [|key keys IH]; intros c; cbn [fold_left].
  - rewrite bool_decide_eq_false_2; [|apply not_elem_of_nil].
    by rewrite andb_false_r.
  - rewrite IH. destruct (decide (k = key)) as [->|Hne].
    + rewrite (bool_decide_eq_true_2 (key ∈ key :: keys)); [|left].
      rewrite andb_true_r. destruct (includes key p) eqn:Hp; simpl.
      * case_bool_decide; [done|]. by rewrite lookup_delete_eq.
      * done.
    + assert (bool_decide (k ∈ key :: keys) = bool_decide (k ∈ keys)) as ->.
      { apply bool_decide_ext. rewrite elem_of_cons. intuition congruence. }
      destruct (includes k p && bool_decide (k ∈ keys)); [done|].
      destruct (includes key p); [|done]. by rewrite lookup_delete_ne.
Qed.

Lemma invalidatePattern_lookup p c k :
  DataCache.invalidatePattern p c !! k =
    if includes k p then None else c !! k.
Proof.
  unfold DataCache.invalidatePattern. rewrite invalidatePattern_keys_lookup.
  destruct (includes k p); simpl; [|done].
  case_bool_decide as Hin; [done|].
  destruct (c !! k) as [e|] eqn:Hk; [|done].
  exfalso. apply Hin. apply list_elem_of_fmap. exists (k, e). split; [done|].
  by apply elem_of_map_to_list.
Qed.

Lemma get_miss now key c :
  c !! key = None -> DataCache.get now key c = (None, c).
Proof. intros H. unfold DataCache.get. by rewrite H. Qed.

Lemma get_other now key c k :
  k ≠ key -> snd (DataCache.get now key c) !! k = c !! k.
Proof.
  intros Hne. unfold DataCache.get. destruct (c !! key) as [e|]; [|done].
  destruct (now >? expiresAt e); simpl; [|done]. by rewrite lookup_delete_ne.
Qed.
End DataCacheFacts.

Section DataCacheClaims.
Context {T : Type}.
Implicit Types (c : gmap string (CacheEntry T)) (key k p : string).

Lemma get_fresh now later key (value : T) t c :
  later <= now + t ->
  DataCache.get later key (DataCache.set now key value t c)
  = (Some value, DataCache.set now key value t c).
Proof.
  intros Hle. unfold DataCache.get, DataCache.set.
  rewrite lookup_insert_eq. simpl.
  destruct (later >? now + t) eqn:Hgt; [lia|done].
Qed.

Lemma get_expired now later key (value : T) t c :
  now + t < later ->
  DataCache.get later key (DataCache.set now key value t c)
  = (None, delete key c).
Proof.
  intros Hlt. unfold DataCache.get, DataCache.set.
  rewrite lookup_insert_eq. simpl.
  destruct (later >? now + t) eqn:Hgt; [|lia].
  by rewrite delete_insert_eq.
Qed.

Lemma has_store now key c :
  snd (DataCache.has now key c) = snd (DataCache.get now key c).
Proof. unfold DataCache.has. by destruct (DataCache.get now key c). Qed.

Lemma get_same now key c e :
  c !! key = Some e ->
  snd (DataCache.get now key c) !! key
  = if now >? expiresAt e then None else Some e.
Proof.
  intros He. unfold DataCache.get. rewrite He.
  destruct (now >? expiresAt e); simpl; [apply lookup_delete_eq|done].
Qed.

Lemma run_op_fate (o : @DataCache.op T) c key e :
  c !! key = Some e -> entry_fate o key e (DataCache.run_op o c !! key).
Proof.
  intros He. destruct o as [now k|now k d ttl|k|p| |now k]; simpl.
  - destruct (decide (k = key)) as [->|Hne].
    + rewrite (get_same _ _ _ _ He).
      destruct (now >? expiresAt e) eqn:Hgt; simpl; [|by left].
      left. exists now. split; [by left|lia].
    + rewrite get_other; [|done]. rewrite He. by left.
  - unfold DataCache.set. destruct (decide (k = key)) as [->|Hne].
    + rewrite lookup_insert_eq. right. by exists now, d, ttl.
    + rewrite lookup_insert_ne; [|done]. rewrite He. by left.
  - unfold DataCache.invalidate. destruct (decide (k = key)) as [->|Hne].
    + rewrite lookup_delete_eq. right. by left.
    + rewrite lookup_delete_ne; [|done]. rewrite He. by left.
  - rewrite invalidatePattern_lookup.
    destruct (includes key p) eqn:Hp.
    + right. right. left. by exists p.
    + rewrite He. by left.
  - unfold DataCache.clear. rewrite lookup_empty. by repeat right.
  - rewrite has_store. destruct (decide (k = key)) as [->|Hne].
    + rewrite (get_same _ _ _ _ He).
      destruct (now >? expiresAt e) eqn:Hgt; simpl; [|by left].
      left. exists now. split; [by right|lia].
    + rewrite get_other; [|done]. rewrite He. by left.
Qed.

(** C5. After [set(key, value, t)] at time [now], a [get(key)] at any time
    up to and including [now + t] returns exactly the stored value and
    leaves the cache as it is; a [get(key)] strictly after [now + t]
    returns [null] and removes the entry. An entry is never changed in
    place: after any single operation of the cache, the entry under a key
    is the same entry, or a new one written by a [set] on that key, or it
    is gone because it had expired when read, because it was invalidated
    (by key, by pattern, or by clearing the cache). *)
Theorem C5_ttl_get_set c key (value : T) (t now later : Z) :
  (later <= now + t ->
     DataCache.get later key (DataCache.set now key value t c)
     = (Some value, DataCache.set now key value t c))
  /\ (now + t < later ->
        fst (DataCache.get later key (DataCache.set now key value t c)) = None
        /\ snd (DataCache.get later key (DataCache.set now key value t c))
             !! key = None)
  /\ (forall (o : DataCache.op) c0 e,
        c0 !! key = Some e ->
        entry_fate o key e (DataCache.run_op o c0 !! key)).
Proof.
  split; [apply get_fresh|]. split.
  - intros Hlt. rewrite get_expired; [|done]. simpl.
    split; [done|apply lookup_delete_eq].
  - intros o c0 e. apply run_op_fate.
Qed.
End DataCacheClaims.

Lemma C5_ttl_get_set_witness :
  1000 <= 0 + 1000
  /\ DataCache.get 1000 "user:profile"
       (DataCache.set 0 "user:profile" "ada" 1000 ∅)
     = (Some "ada", DataCache.set 0 "user:profile" "ada" 1000 ∅).
Proof.
  split; [lia|].
  apply (proj1 (C5_ttl_get_set ∅ "user:profile" "ada" 1000 0 1000)). lia.
Defined.

Section InvalidationClaims.
Context {T : Type}.
Implicit Types (c : gmap string (CacheEntry T)) (key : string).

Lemma invalidateVideosCache_lookup c key :
  invalidateVideosCache c !! key
  = if videos_cache_key key then None else c !! key.
Proof.
  unfold invalidateVideosCache, videos_cache_key, DataCache.invalidate.
  rewrite !invalidatePattern_lookup.
  destruct (includes key "comments:"); [by rewrite !orb_true_r|].
  destruct (includes key "video:"); [by rewrite orb_true_r|].
  rewrite !orb_false_r.
  destruct (String.eqb_spec key CACHE_KEYS.USER_VIDEOS) as [->|Hne].
  - apply lookup_delete_eq.
  - by rewrite lookup_delete_ne.
Qed.

(** C8. After [invalidateVideosCache], whatever the cache held, no entry
    remains under the user-videos key or under a key containing ['video:']
    or ['comments:'], so a later [get] of such a key misses (at any time,
    and without touching the cache); every other key holds exactly what it
    held before. *)
Theorem C8_invalidateVideosCache_frame c key (now : Z) :
  (videos_cache_key key = true ->
     invalidateVideosCache c !! key = None
     /\ DataCache.get now key (invalidateVideosCache c)
        = (None, invalidateVideosCache c))
  /\ (videos_cache_key key = false ->
        invalidateVideosCache c !! key = c !! key).
Proof.
  split; intros Hk.
  - assert (invalidateVideosCache c !! key = None) as Hnone.
    { by rewrite invalidateVideosCache_lookup, Hk. }
    split; [done|]. by apply get_miss.
  - by rewrite invalidateVideosCache_lookup, Hk.
Qed.
End InvalidationClaims.

Lemma C8_invalidateVideosCache_frame_witness :
  videos_cache_key "video:abc" = true
  /\ invalidateVideosCache
       (<["video:abc" := mkEntry "details" 0 300000]>
          (<["user:profile" := mkEntry "ada" 0 300000]> ∅))
     !! "video:abc" = None.
Proof.
  split; [reflexivity|].
  apply (proj1 (C8_invalidateVideosCache_frame
                  (<["video:abc" := mkEntry "details" 0 300000]>
                     (<["user:profile" := mkEntry "ada" 0 300000]> ∅))
                  "video:abc" 0)).
  reflexivity.
Defined.

Section QueryClaims.
Context {Number : Type}.
Context (number_truthy : Number -> bool) (number_toString : Number -> string).
Context (encode : string -> string).
Context {Any : Type} (truthy : Any -> bool).
Context (apiFetch : string -> result Any).

Lemma append_not_nil name value (p : URLSearchParams.t) :
  URLSearchParams.append name value p <> [].
Proof. unfold URLSearchParams.append. by destruct p. Qed.

Lemma appendString_nil name v p :
  appendString name v p = [] <-> p = [] /\ string_given v = false.
Proof.
  unfold appendString, string_given. destruct v as [x|]; [|intuition congruence].
  destruct (truthy_string x); [|intuition congruence].
  split; [intros H; by apply append_not_nil in H|intuition congruence].
Qed.

Lemma appendNumber_nil name v p :
  appendNumber number_truthy number_toString name v p = []
  <-> p = [] /\ number_given number_truthy v = false.
Proof.
  unfold appendNumber, number_given. destruct v as [x|]; [|intuition congruence].
  destruct (number_truthy x); [|intuition congruence].
  split; [intros H; by apply append_not_nil in H|intuition congruence].
Qed.

Lemma appendDefined_nil name v p :
  appendDefined number_toString name v p = []
  <-> p = [] /\ @number_defined Number v = false.
Proof.
  unfold appendDefined, number_defined. destruct v as [x|]; [|intuition congruence].
  split; [intros H; by apply append_not_nil in H|intuition congruence].
Qed.

Lemma commentParams_nil filters :
  commentParams number_truthy number_toString filters = []
  <-> carriesCommentFilter number_truthy filters = false.
Proof.
  unfold commentParams, carriesCommentFilter.
  rewrite !appendNumber_nil, !appendString_nil, appendDefined_nil,
          !appendString_nil, !orb_false_iff.
  intuition congruence.
Qed.

Lemma alertParams_nil filters :
  alertParams number_truthy number_toString filters = []
  <-> carriesAlertFilter number_truthy filters = false.
Proof.
  unfold alertParams, carriesAlertFilter.
  rewrite appendNumber_nil, !appendString_nil, !orb_false_iff.
  unfold flag_given. destruct (filters ≫= unreadOnly) as [[|]|].
  - split; [intros [[[H _] _] _]; by apply append_not_nil in H|intuition congruence].
  - intuition congruence.
  - intuition congruence.
Qed.

Lemma append_truthy (a b : string) :
  truthy_string (a +:+ "=" +:+ b) = true.
Proof. by destruct a. Qed.

Lemma toString_truthy (p : URLSearchParams.t) :
  p <> [] -> truthy_string (URLSearchParams.toString encode p) = true.
Proof.
  destruct p as [|[name value] rest]; [done|]. intros _. simpl.
  destruct rest; [apply append_truthy|].
  by destruct (encode name).
Qed.

Lemma toString_nil : truthy_string (URLSearchParams.toString encode []) = false.
Proof. reflexivity. Qed.

Lemma cachedQuery_filtered now_read now_write url cacheKey queryString ttl
    skipCache (c : gmap string (CacheEntry Any)) :
  truthy_string queryString = true ->
  cachedQuery truthy apiFetch now_read now_write url cacheKey queryString ttl
              skipCache c
  = mkOutcome (apiFetch url) c [url].
Proof.
  intros Hq. unfold cachedQuery. rewrite Hq, andb_false_r. simpl.
  by destruct (apiFetch url).
Qed.

Lemma getVideoComments_filtered now_read now_write videoId filters skipCache
    (c : gmap string (CacheEntry Any)) :
  carriesCommentFilter number_truthy filters = true ->
  getVideoComments number_truthy number_toString encode truthy apiFetch
                   now_read now_write videoId filters skipCache c
  = mkOutcome (apiFetch (commentsUrl number_truthy number_toString encode
                                     videoId filters))
              c
              [commentsUrl number_truthy number_toString encode videoId filters].
Proof.
  intros Hf. unfold getVideoComments, commentsUrl.
  apply cachedQuery_filtered, toString_truthy.
  rewrite commentParams_nil. congruence.
Qed.

Lemma getAlerts_filtered now_read now_write filters skipCache
    (c : gmap string (CacheEntry Any)) :
  carriesAlertFilter number_truthy filters = true ->
  getAlerts number_truthy number_toString encode truthy apiFetch
            now_read now_write filters skipCache c
  = mkOutcome (apiFetch (alertsUrl number_truthy number_toString encode filters))
              c [alertsUrl number_truthy number_toString encode filters].
Proof.
  intros Hf. unfold getAlerts, alertsUrl.
  apply cachedQuery_filtered, toString_truthy.
  rewrite alertParams_nil. congruence.
Qed.

(** C10. A comments query that carries at least one of category,
    sentiment, minToxicity, search, sortBy, order, limit, offset, and an
    alerts query that carries at least one of unreadOnly, alertType,
    severity, limit, neither read nor write the data cache: the request goes
    to the network (exactly one call of [apiFetch], for the URL with the
    query string), its outcome is what the caller gets, and the cache is
    what it was. Conversely, when a query is answered without a request, or
    leaves the cache different, it carried no filter parameter. A field
    counts as carried when its [if] in the source succeeds (a non-empty
    string, a number other than zero, [true]; any defined [minToxicity]). *)
Theorem C10_filtered_queries_bypass_cache now_read now_write videoId
    (filters : option CommentFilters) (alertFilters : option AlertFilters)
    skipCache (c : gmap string (CacheEntry Any)) :
  let comments :=
    getVideoComments number_truthy number_toString encode truthy apiFetch
                     now_read now_write videoId filters skipCache c in
  let alerts :=
    getAlerts number_truthy number_toString encode truthy apiFetch
              now_read now_write alertFilters skipCache c in
  let url := commentsUrl number_truthy number_toString encode videoId filters in
  let alertUrl := alertsUrl number_truthy number_toString encode alertFilters in
  (carriesCommentFilter number_truthy filters = true ->
     comments = mkOutcome (apiFetch url) c [url])
  /\ (carriesAlertFilter number_truthy alertFilters = true ->
        alerts = mkOutcome (apiFetch alertUrl) c [alertUrl])
  /\ (requests comments = [] \/ cacheAfter comments <> c ->
        carriesCommentFilter number_truthy filters = false)
  /\ (requests alerts = [] \/ cacheAfter alerts <> c ->
        carriesAlertFilter number_truthy alertFilters = false).
Proof.
  cbv zeta. repeat split.
  - apply getVideoComments_filtered.
  - apply getAlerts_filtered.
  - intros H.
    destruct (carriesCommentFilter number_truthy filters) eqn:Hf; [|done].
    rewrite getVideoComments_filtered in H by done. simpl in H.
    destruct H as [H|H]; [discriminate|by destruct H].
  - intros H.
    destruct (carriesAlertFilter number_truthy alertFilters) eqn:Hf; [|done].
    rewrite getAlerts_filtered in H by done. simpl in H.
    destruct H as [H|H]; [discriminate|by destruct H].
Qed.
End QueryClaims.

Lemma C10_filtered_queries_bypass_cache_witness :
  let filters := Some (mkCommentFilters None None None None None None (Some 100) None) in
  let c := <["comments:abc" := mkEntry "cached" 0 300000]> ∅ in
  carriesCommentFilter int_truthy filters = true
  /\ getVideoComments int_truthy number_to_string plain truthy_string
       (fun url => Ok url) 10 20 "abc" filters false c
     = mkOutcome (Ok "/api/videos/abc/comments?limit=100") c
                 ["/api/videos/abc/comments?limit=100"].
Proof.
  split; [reflexivity|].
  exact (proj1 (C10_filtered_queries_bypass_cache int_truthy number_to_string
                  plain truthy_string (fun url => Ok url) 10 20 "abc"
                  (Some (mkCommentFilters None None None None None None
                                          (Some 100) None))
                  None false
                  (<["comments:abc" := mkEntry "cached" 0 300000]> ∅))
               eq_refl).
Defined.

Section ClientClaims.
Context {Json : Type} (detail : Json -> option string).
Context (API_URL : string).
Context (fetch : string -> Client.RequestInit -> result (Client.Response Json)).




End ClientClaims.



Section RateLimiterClaims.
Import RateLimiter.

(** C7. The rate limiter's key is [user:<userId>] whenever the request
    carries a user whose ['userId'] is a non-empty string (an empty or
    missing userId counts as none, as Python's truth test has it), and
    [ip:<address>] in every other case; the limiter is configured with this
    key function and the fixed-window strategy. *)
Theorem C7_rate_limit_key (request : Request) :
  (forall user uid,
      state_user request = Some (Some user) ->
      dict_get "userId" user = PyStr uid -> uid <> "" ->
      get_user_identifier request = "user:" +:+ uid)
  /\ ((forall user uid,
         state_user request = Some (Some user) ->
         dict_get "userId" user = PyStr uid -> uid = "") ->
      get_user_identifier request = "ip:" +:+ remote_address request)
  /\ key_func limiter = get_user_identifier
  /\ strategy limiter = "fixed-window".
Proof.
  repeat split.
  - intros user uid Hu Hid Hne. unfold get_user_identifier, attached_user.
    rewrite Hu. destruct user as [|entry rest]; [discriminate|].
    rewrite Hid. simpl. unfold truthy_string.
    destruct (String.eqb_spec uid ""); [done|done].
  - intros Hnone. unfold get_user_identifier, attached_user.
    destruct (state_user request) as [[[|entry rest]|]|] eqn:Hu; try done.
    destruct (dict_get "userId" (entry :: rest)) as [|uid] eqn:Hid; [done|].
    rewrite (Hnone _ _ eq_refl Hid). done.
Qed.
End RateLimiterClaims.

Lemma C7_rate_limit_key_witness :
  let request :=
    RateLimiter.mkRequest
      (Some (Some [("email", RateLimiter.PyStr "a@b.c");
                   ("userId", RateLimiter.PyStr "u42")])) "10.0.0.7" in
  RateLimiter.state_user request
  = Some (Some [("email", RateLimiter.PyStr "a@b.c");
                ("userId", RateLimiter.PyStr "u42")])
  /\ RateLimiter.get_user_identifier request = "user:u42".
Proof.
  cbv zeta. split; [reflexivity|].
  apply (proj1 (C7_rate_limit_key
                  (RateLimiter.mkRequest
                     (Some (Some [("email", RateLimiter.PyStr "a@b.c");
                                  ("userId", RateLimiter.PyStr "u42")]))
                     "10.0.0.7"))
               [("email", RateLimiter.PyStr "a@b.c");
                ("userId", RateLimiter.PyStr "u42")]
               "u42" eq_refl eq_refl).
  discriminate.
Defined.

Section SubmissionClaims.
Import AddVideo.




End SubmissionClaims.

(** The same refusal sent without a detail is recognised: the message is
    then "HTTP 403". *)
Example quota_refusal_without_detail_prompts_upgrade :
  VideosApi.handleAnalyze "http://localhost:8000"
    (refusingBackend "http://localhost:8000"
       (Client.mkResponse false 403 (Ok [])))
    (fun _ => "") (fun _ => true) 0 1 (Some (Ok "tok")) None
    "https://youtube.com/watch?v=abc" AddVideo.initialView
  = AddVideo.mkView "Plan limit reached. Upgrade to continue." false false
      [ToastSuccess "Video found: My video";
       ToastError
         "You've reached your plan limit. Please upgrade to analyze more videos."]
      None.
Proof. reflexivity. Qed.

Section AnswerCacheClaims.
Import AnswerCache.
Context (answerQuestion : string -> string -> string).

Lemma warmOne_keeps videoRef st question key :
  is_Some (preGeneratedAnswers st !! key) ->
  is_Some (preGeneratedAnswers (warmOne answerQuestion videoRef st question) !! key).
Proof.
  intros Hsome. unfold warmOne. simpl.
  destruct (decide ((videoRef, canonicalize question) = key)) as [<-|Hne].
  - rewrite lookup_insert_eq. by eexists.
  - by rewrite lookup_insert_ne.
Qed.

Lemma warm_fold_keeps videoRef questions st key :
  is_Some (preGeneratedAnswers st !! key) ->
  is_Some (preGeneratedAnswers
             (fold_left (warmOne answerQuestion videoRef) questions st) !! key).
Proof.
  revert st. induction questions as [|q questions IH]; intros st Hsome; [done|].
  simpl. apply IH. by apply warmOne_keeps.
Qed.

Lemma warm_fold_stores videoRef questions st question :
  In question questions ->
  is_Some (preGeneratedAnswers
             (fold_left (warmOne answerQuestion videoRef) questions st)
           !! (videoRef, canonicalize question)).
Proof.
  revert st. induction questions as [|q questions IH]; intros st Hin; [done|].
  simpl. destruct Hin as [->|Hin].
  - apply warm_fold_keeps. unfold warmOne. simpl. rewrite lookup_insert_eq.
    by eexists.
  - by apply IH.
Qed.

Lemma warm_hit videoRef st question :
  In question canonicalQuestions ->
  exists a,
    lookup videoRef question (warm answerQuestion videoRef st)
    = Some (mkReply a true).
Proof.
  intros Hin. unfold lookup, warm.
  destruct (warm_fold_stores videoRef canonicalQuestions st question Hin)
    as [a Ha].
  exists a. by rewrite Ha.
Qed.

(** C3 (as amended). For every video and every question of the fixed
    canonical list, the question-answering path run after [warm] answers
    from the cache: the reply carries [cached = true] and the store,
    including the count of AI calls, is what [warm] left. The questions the
    Ask AI panel suggests are a different fixed list: none of the five is a
    canonical question, as written or in canonical form, nor one of the five
    common questions of the build notes. *)
Theorem C3_warm_then_lookup_is_cached videoRef st question :
  (In question canonicalQuestions ->
     exists a,
       answerPath answerQuestion videoRef question
                  (warm answerQuestion videoRef st)
       = (mkReply a true, warm answerQuestion videoRef st))
  /\ (forall suggested,
        In suggested AskAISection.suggestedQuestions ->
        ~ In suggested canonicalQuestions
        /\ ~ In (canonicalize suggested) (map canonicalize canonicalQuestions)
        /\ ~ In (canonicalize suggested) (map canonicalize commonQuestions)).
Proof.
  split.
  - intros Hin. destruct (warm_hit videoRef st question Hin) as [a Ha].
    exists a. unfold answerPath. by rewrite Ha.
  - intros suggested Hin.
    assert (forallb
              (fun q =>
                 negb (existsb (String.eqb q) canonicalQuestions)
                 && negb (existsb (String.eqb (canonicalize q))
                            (map canonicalize canonicalQuestions))
                 && negb (existsb (String.eqb (canonicalize q))
                            (map canonicalize commonQuestions)))
              AskAISection.suggestedQuestions = true) as Hall
      by (vm_compute; reflexivity).
    rewrite forallb_forall in Hall. specialize (Hall suggested Hin).
    apply andb_prop in Hall as [Hall H3]. apply andb_prop in Hall as [H1 H2].
    repeat split; intros Habs.
    + apply negb_true_iff in H1. apply not_true_iff_false in H1. apply H1.
      apply existsb_exists. exists suggested. split; [done|apply String.eqb_refl].
    + apply negb_true_iff in H2. apply not_true_iff_false in H2. apply H2.
      apply existsb_exists. eexists. split; [exact Habs|apply String.eqb_refl].
    + apply negb_true_iff in H3. apply not_true_iff_false in H3. apply H3.
      apply existsb_exists. eexists. split; [exact Habs|apply String.eqb_refl].
Qed.
End AnswerCacheClaims.

Lemma C3_warm_then_lookup_is_cached_witness :
  let ai := fun videoRef question => "answer to: " +:+ question in
  let st := AnswerCache.mkStore ∅ ∅ 0 in
  In "what do people love most" AnswerCache.canonicalQuestions
  /\ exists a,
       AnswerCache.answerPath ai "v1" "what do people love most"
                              (AnswerCache.warm ai "v1" st)
       = (AnswerCache.mkReply a true, AnswerCache.warm ai "v1" st).
Proof.
  cbv zeta.
  assert (In "what do people love most" AnswerCache.canonicalQuestions) as Hin
    by (right; right; left; reflexivity).
  split; [exact Hin|].
  exact (proj1 (C3_warm_then_lookup_is_cached
                  (fun videoRef question => "answer to: " +:+ question)
                  "v1" (AnswerCache.mkStore ∅ ∅ 0) "what do people love most")
               Hin).
Defined.

(** The claim of C3 fails on the panel's first suggestion: it is not a
    canonical question, so after [warm] on a fresh store its lookup misses
    and answering it costs an AI call, with [cached = false]. *)
Lemma C3_counterexample :
  let ai := fun (videoRef question : string) => "answer to: " +:+ question in
  let suggested := "What are the main themes in these comments?" in
  let warmed := AnswerCache.warm ai "v1" (AnswerCache.mkStore ∅ ∅ 0) in
  hd_error AskAISection.suggestedQuestions = Some suggested
  /\ existsb (String.eqb (AnswerCache.canonicalize suggested))
       (map AnswerCache.canonicalize AnswerCache.canonicalQuestions) = false
  /\ AnswerCache.lookup "v1" suggested warmed = None
  /\ AnswerCache.cached (fst (AnswerCache.answerPath ai "v1" suggested warmed))
     = false
  /\ AnswerCache.aiCalls (snd (AnswerCache.answerPath ai "v1" suggested warmed))
     = S (AnswerCache.aiCalls warmed).
Proof.
  cbv zeta.
  split; [reflexivity|]. split; [vm_compute; reflexivity|].
  split; [vm_compute; reflexivity|]. split; vm_compute; reflexivity.
Qed.

Section OrchestratorClaims.
Import Orchestrator.
Local Open Scope nat_scope.

Lemma fetchProgress_bounds processed total :
  10 <= fetchProgress processed total <= 70.
Proof. unfold fetchProgress. destruct (total =? 0); lia. Qed.

Lemma fetchProgress_mono processed processed' total :
  processed <= processed' ->
  fetchProgress processed total <= fetchProgress processed' total.
Proof.
  intros Hle. unfold fetchProgress. destruct (total =? 0); [lia|].
  assert (60 * processed / total <= 60 * processed' / total)
    by (apply Nat.Div0.div_le_mono; lia).
  lia.
Qed.

Lemma submit_consistent total : consistent (submit total).
Proof. reflexivity. Qed.

Lemma step_consistent e j : consistent j -> consistent (step e j).
Proof.
  unfold consistent, step. intros Hj.
  destruct (state j) eqn:Hs; destruct e as [|n| | | |msg]; simpl;
    rewrite ?Hs; try lia; try done.
  - pose proof (fetchProgress_bounds (commentsProcessed j) (commentsTotal j)).
    lia.
  - pose proof (fetchProgress_bounds (commentsProcessed j + n)
                                     (commentsTotal j)). lia.
  - pose proof (fetchProgress_bounds (commentsProcessed j) (commentsTotal j)).
    lia.
Qed.

Lemma run_consistent events j : consistent j -> consistent (run events j).
Proof.
  revert j. induction events as [|e events IH]; intros j Hj; [done|].
  simpl. apply IH. by apply step_consistent.
Qed.

Lemma step_progress e j :
  consistent j -> progressPercent j <= progressPercent (step e j).
Proof.
  unfold consistent, step. intros Hj.
  destruct (state j) eqn:Hs; destruct e as [|n| | | |msg]; simpl; try lia.
  - pose proof (fetchProgress_mono (commentsProcessed j)
                  (commentsProcessed j + n) (commentsTotal j)).
    lia.
  - pose proof (fetchProgress_bounds (commentsProcessed j) (commentsTotal j)).
    lia.
Qed.

Lemma run_progress events j :
  consistent j -> progressPercent j <= progressPercent (run events j).
Proof.
  revert j. induction events as [|e events IH]; intros j Hj; [done|].
  simpl. etransitivity; [by apply step_progress|].
  apply IH. by apply step_consistent.
Qed.

Lemma run_app events more j : run (events ++ more) j = run more (run events j).
Proof. unfold run. apply fold_left_app. Qed.

(** C2. For every job, at every point of its life (after any sequence of
    events since submission), whatever happens next the progress does not
    decrease: the progress observed later, after any further events, is at
    least the progress observed now. The progress is 100 exactly when the
    job is Completed, and strictly below 100 in every other state. *)
Theorem C2_progress_monotone total (events : list Event) :
  let j := run events (submit total) in
  (forall more, progressPercent j <= progressPercent (run (events ++ more) (submit total)))
  /\ (progressPercent j = 100 <-> state j = Completed)
  /\ (state j <> Completed -> progressPercent j < 100).
Proof.
  cbv zeta.
  pose proof (run_consistent events _ (submit_consistent total)) as Hj.
  split; [|split].
  - intros more. rewrite run_app. by apply run_progress.
  - unfold consistent in Hj.
    pose proof (fetchProgress_bounds
                  (commentsProcessed (run events (submit total)))
                  (commentsTotal (run events (submit total)))).
    destruct (state (run events (submit total))); split; intros; try done; lia.
  - intros Hne. unfold consistent in Hj.
    pose proof (fetchProgress_bounds
                  (commentsProcessed (run events (submit total)))
                  (commentsTotal (run events (submit total)))).
    destruct (state (run events (submit total))); try done; lia.
Qed.
End OrchestratorClaims.

Section JobStateClaims.
Import Orchestrator.








End JobStateClaims.



Section FetchProgressClaims.
Import Orchestrator.

Local Ltac decide_comparisons :=
  repeat match goal with
         | |- context [?a >=? ?b] =>
             first [ replace (a >=? b) with true by lia
                   | replace (a >=? b) with false by lia ]
         | |- context [?a <? ?b] =>
             first [ replace (a <? b) with true by lia
                   | replace (a <? b) with false by lia ]
         end.

(** What [updateSteps] shows for "Downloading comments" on a fresh view. *)
Lemma updateSteps_download (progress processed total : Z) :
  Analyzing.downloadStatus
    (Analyzing.updateSteps progress processed total Analyzing.initialSteps)
  = Some (if progress >=? 70 then Analyzing.completed
          else if progress >=? 15 then Analyzing.inProgress
          else Analyzing.pending).
Proof.
  unfold Analyzing.updateSteps.
  destruct (Z_lt_le_dec progress 5); [decide_comparisons; reflexivity|].
  destruct (Z_lt_le_dec progress 10); [decide_comparisons; reflexivity|].
  destruct (Z_lt_le_dec progress 15); [decide_comparisons; reflexivity|].
  destruct (Z_lt_le_dec progress 70).
  { decide_comparisons. simpl.
    by destruct ((processed >? 0) && (total >? 0)). }
  destruct (Z_lt_le_dec progress 75); [decide_comparisons; reflexivity|].
  destruct (Z_lt_le_dec progress 85); [decide_comparisons; reflexivity|].
  destruct (Z_lt_le_dec progress 95); [decide_comparisons; reflexivity|].
  destruct (Z_lt_le_dec progress 100); decide_comparisons; reflexivity.
Qed.

Local Open Scope nat_scope.

Lemma run_total events j : commentsTotal (run events j) = commentsTotal j.
Proof.
  revert j. induction events as [|e events IH]; intros j; [done|].
  simpl. rewrite IH. unfold step.
  by destruct (state j), e.
Qed.

(** C6. A job enters Fetching at progress 10. While it is fetching, its
    progress stays between 10 and 70, and each page consumed puts it at 10
    plus the share commentsProcessed/commentsTotal of the 60 points of the
    range (rounded down, capped at 70, and 10 for a video announcing no
    comments), never lower than before. A job past fetching (Analyzing,
    Finalizing or Completed) has progress 70 or more. The progress view
    agrees: on a fresh view it marks "Downloading comments" completed
    exactly when the progress is 70 or more, and in progress exactly from 15
    up to, not including, 70. *)
Theorem C6_fetch_progress total (events : list Event) :
  let j := run events (submit total) in
  (state j = Queued ->
     state (step WorkerPickup j) = Fetching
     /\ progressPercent (step WorkerPickup j) = 10)
  /\ (state j = Fetching ->
        10 <= progressPercent j <= 70
        /\ forall n,
             let j' := step (PageConsumed n) j in
             state j' = Fetching
             /\ commentsProcessed j' = commentsProcessed j + n
             /\ commentsTotal j' = total
             /\ progressPercent j'
                = (if total =? 0 then 10
                   else 10 + Nat.min 60 (60 * commentsProcessed j' / total))
             /\ progressPercent j <= progressPercent j' <= 70)
  /\ (state j = Analyzing \/ state j = Finalizing \/ state j = Completed ->
        70 <= progressPercent j)
  /\ (forall (progress processed known : Z),
        let shown :=
          Analyzing.downloadStatus
            (Analyzing.updateSteps progress processed known
                                   Analyzing.initialSteps) in
        (shown = Some Analyzing.completed <-> (70 <= progress)%Z)
        /\ (shown = Some Analyzing.inProgress <-> (15 <= progress < 70)%Z)).
Proof.
  cbv zeta.
  pose proof (run_consistent events _ (submit_consistent total)) as Hj.
  pose proof (run_total events (submit total)) as Htotal. simpl in Htotal.
  set (j := run events (submit total)) in *.
  split; [|split; [|split]].
  - intros Hs. unfold step. by rewrite Hs.
  - intros Hs.
    pose proof (fetchProgress_bounds (commentsProcessed j) (commentsTotal j))
      as Hb.
    assert (10 <= progressPercent j <= 70) as Hrange.
    { unfold consistent in Hj. rewrite Hs in Hj. lia. }
    split; [exact Hrange|]. intros n.
    pose proof (step_progress (PageConsumed n) j Hj) as Hmono.
    unfold step in *. rewrite Hs in *. simpl in *. rewrite Htotal in *.
    pose proof (fetchProgress_bounds (commentsProcessed j + n) total) as Hb'.
    repeat split; try done; lia.
  - unfold consistent in Hj. intros [Hs|[Hs|Hs]]; rewrite Hs in Hj; lia.
  - intros progress processed known. rewrite updateSteps_download.
    destruct (Z.geb_spec progress 70) as [H70|H70],
             (Z.geb_spec progress 15) as [H15|H15];
      split; split; intros Hshown; try done; try lia;
      try (by inversion Hshown).
Qed.
End FetchProgressClaims.

Lemma C6_fetch_progress_witness :
  let j := Orchestrator.run [Orchestrator.WorkerPickup; Orchestrator.PageConsumed 20]
                            (Orchestrator.submit 80) in
  Orchestrator.state j = Orchestrator.Fetching
  /\ Orchestrator.progressPercent j = 25%nat
  /\ (10 <= Orchestrator.progressPercent j <= 70)%nat.
Proof.
  cbv zeta. split; [reflexivity|]. split; [reflexivity|].
  exact (proj1 (proj1 (proj2 (C6_fetch_progress 80
                  [Orchestrator.WorkerPickup; Orchestrator.PageConsumed 20]))
                eq_refl)).
Defined.

(** * Further properties of the client *)

Section DataCacheMore.
Context {T : Type}.
Implicit Types (c : gmap string (CacheEntry T)) (key k p : string).

Lemma includes_empty_pattern (s : string) : includes s "" = true.
Proof. by destruct s. Qed.

(** X1. [has(key)] answers [true] exactly when the key holds an entry that
    has not expired at the time of the call; a [true] answer leaves the
    cache as it is, a [false] answer leaves the key without an entry (an
    expired entry is evicted by the check), and no other key is touched.
    Stored data is taken to be other than [null], which [get] cannot tell
    from a miss. *)
Theorem has_reports_live_entries (now : Z) key c :
  (fst (DataCache.has now key c) = true
   <-> exists e, c !! key = Some e /\ now <= expiresAt e)
  /\ (fst (DataCache.has now key c) = true -> snd (DataCache.has now key c) = c)
  /\ (fst (DataCache.has now key c) = false ->
        snd (DataCache.has now key c) !! key = None)
  /\ (forall k, k <> key -> snd (DataCache.has now key c) !! k = c !! k).
Proof.
  unfold DataCache.has, DataCache.get.
  destruct (c !! key) as [e|] eqn:He.
  - destruct (now >? expiresAt e) eqn:Hgt; simpl.
    + repeat split; try done.
      * intros (e' & [= <-] & Hle). lia.
      * intros _. apply lookup_delete_eq.
      * intros k Hk. by rewrite lookup_delete_ne.
    + repeat split; try done. intros _. exists e. split; [done|lia].
  - simpl. repeat split; try done. by intros (e & ? & _).
Qed.

(** X2. A second [set] on a key replaces the first entirely: the cache is
    the one the second [set] alone would give, so only the second TTL
    counts, however long the first one was. *)
Theorem set_replaces_earlier_set (now1 now2 t1 t2 later : Z) key (v1 v2 : T) c :
  let twice := DataCache.set now2 key v2 t2 (DataCache.set now1 key v1 t1 c) in
  twice = DataCache.set now2 key v2 t2 c
  /\ (later <= now2 + t2 -> fst (DataCache.get later key twice) = Some v2)
  /\ (now2 + t2 < later -> fst (DataCache.get later key twice) = None).
Proof.
  cbv zeta.
  assert (DataCache.set now2 key v2 t2 (DataCache.set now1 key v1 t1 c)
          = DataCache.set now2 key v2 t2 c) as ->.
  { unfold DataCache.set. apply insert_insert_eq. }
  split; [done|]. split; intros Ht.
  - by rewrite get_fresh.
  - by rewrite get_expired.
Qed.

(** X3. Every string includes the empty string, so [invalidatePattern('')]
    removes every entry. *)
Theorem invalidatePattern_empty_pattern_clears c :
  DataCache.invalidatePattern "" c = ∅.
Proof.
  apply map_eq. intros k. rewrite invalidatePattern_lookup, lookup_empty.
  by rewrite includes_empty_pattern.
Qed.

(** X4. [invalidatePattern] only removes: what a key holds afterwards it
    held before. Running it twice with the same pattern changes nothing
    more, and two patterns can be invalidated in either order. *)
Theorem invalidatePattern_only_removes p q c :
  DataCache.invalidatePattern p c ⊆ c
  /\ DataCache.invalidatePattern p (DataCache.invalidatePattern p c)
     = DataCache.invalidatePattern p c
  /\ DataCache.invalidatePattern p (DataCache.invalidatePattern q c)
     = DataCache.invalidatePattern q (DataCache.invalidatePattern p c).
Proof.
  split; [|split].
  - apply map_subseteq_spec. intros k e. rewrite invalidatePattern_lookup.
    by destruct (includes k p).
  - apply map_eq. intros k. rewrite !invalidatePattern_lookup.
    by destruct (includes k p).
  - apply map_eq. intros k. rewrite !invalidatePattern_lookup.
    by destruct (includes k p), (includes k q).
Qed.

(** X5. A successful sign-out leaves nothing to serve: afterwards every
    [get] on the data cache misses, whatever the key and the time, and no
    token is cached. A failed sign-out rethrows and leaves the token, the
    token cache and the data cache as they were. *)
Theorem signOut_clears_both_caches (firebaseSignOut : result unit)
    (s : AuthContext.Session T) (now : Z) key :
  let after := snd (AuthContext.signOut firebaseSignOut s) in
  (firebaseSignOut = Ok tt ->
     fst (DataCache.get now key (AuthContext.dataCache after)) = None
     /\ AuthContext.tokenCache after = None
     /\ AuthContext.idToken after = None)
  /\ (forall m, firebaseSignOut = Throw m ->
        fst (AuthContext.signOut firebaseSignOut s) = Throw m
        /\ AuthContext.dataCache after = AuthContext.dataCache s
        /\ AuthContext.tokenCache after = AuthContext.tokenCache s
        /\ AuthContext.idToken after = AuthContext.idToken s).
Proof.
  cbv zeta. split.
  - intros ->. simpl. by rewrite get_miss.
  - by intros m ->.
Qed.
End DataCacheMore.

Lemma has_reports_live_entries_witness :
  let c := <["user:profile" := mkEntry "ada" 0 300000]> ∅ in
  fst (DataCache.has 300001 "user:profile" c) = false
  /\ snd (DataCache.has 300001 "user:profile" c) !! "user:profile" = None.
Proof.
  cbv zeta. split; [reflexivity|].
  apply (proj1 (proj2 (proj2 (has_reports_live_entries 300001 "user:profile"
           (<["user:profile" := mkEntry "ada" 0 300000]> ∅))))).
  reflexivity.
Defined.

Lemma set_replaces_earlier_set_witness :
  10 + 5 < 16
  /\ fst (DataCache.get 16 "alerts:all"
            (DataCache.set 10 "alerts:all" "new" 5
               (DataCache.set 0 "alerts:all" "old" 300000 ∅))) = None.
Proof.
  split; [lia|].
  apply (proj2 (proj2 (set_replaces_earlier_set 0 10 300000 5 16 "alerts:all"
                         "old" "new" ∅))).
  lia.
Defined.

Lemma signOut_clears_both_caches_witness :
  let s := AuthContext.mkSession (Some "tok") (Some (freshToken 0 "tok"))
             (<["user:videos" := mkEntry "videos" 0 300000]> ∅) [] in
  fst (DataCache.get 1 "user:videos"
         (AuthContext.dataCache (snd (AuthContext.signOut (Ok tt) s)))) = None
  /\ AuthContext.tokenCache (snd (AuthContext.signOut (Ok tt) s)) = None.
Proof.
  cbv zeta.
  pose proof (proj1 (signOut_clears_both_caches (Ok tt)
                (AuthContext.mkSession (Some "tok") (Some (freshToken 0 "tok"))
                   (<["user:videos" := mkEntry "videos" 0 300000]> ∅) [])
                1 "user:videos") eq_refl) as (Hget & Htok & _).
  split; [exact Hget|exact Htok].
Defined.

Section CachedApiFacts.
Context {Any : Type} (truthy : Any -> bool).
Context (apiFetch : string -> Client.RequestInit -> result Any).
Implicit Types (c : gmap string (CacheEntry Any)) (key url : string).

Lemma cachedGet_hit now_read now_write url key c e :
  c !! key = Some e -> now_read <= expiresAt e -> truthy (data e) = true ->
  CachedApi.cachedGet truthy apiFetch now_read now_write url key false c
  = mkOutcome (Ok (data e)) c [].
Proof.
  intros He Hle Ht. unfold CachedApi.cachedGet, DataCache.get. simpl.
  rewrite He. destruct (now_read >? expiresAt e) eqn:Hgt; [lia|].
  by rewrite Ht.
Qed.

Lemma cachedGet_absent now_read now_write url key skipCache c :
  c !! key = None ->
  CachedApi.cachedGet truthy apiFetch now_read now_write url key skipCache c
  = match apiFetch url Client.noOptions with
    | Throw m => mkOutcome (Throw m) c [url]
    | Ok response =>
        mkOutcome (Ok response)
                  (DataCache.set_default now_write key response c) [url]
    end.
Proof.
  intros Hnone. unfold CachedApi.cachedGet.
  destruct skipCache; simpl; [done|]. by rewrite get_miss.
Qed.

Lemma cachedGet_expired now_read now_write url key c e :
  c !! key = Some e -> expiresAt e < now_read ->
  requests (CachedApi.cachedGet truthy apiFetch now_read now_write url key
                                false c) = [url].
Proof.
  intros He Hlt. unfold CachedApi.cachedGet, DataCache.get. simpl.
  rewrite He. destruct (now_read >? expiresAt e) eqn:Hgt; [|lia].
  by destruct (apiFetch url Client.noOptions).
Qed.

Lemma cachedGet_forced now_read now_write url key c :
  CachedApi.cachedGet truthy apiFetch now_read now_write url key true c
  = match apiFetch url Client.noOptions with
    | Throw m => mkOutcome (Throw m) c [url]
    | Ok response =>
        mkOutcome (Ok response)
                  (DataCache.set_default now_write key response c) [url]
    end.
Proof. reflexivity. Qed.

Lemma cachedGet_stores now_read now_write url key skipCache c response :
  apiFetch url Client.noOptions = Ok response ->
  requests (CachedApi.cachedGet truthy apiFetch now_read now_write url key
                                skipCache c) = [url] ->
  cacheAfter (CachedApi.cachedGet truthy apiFetch now_read now_write url key
                                  skipCache c) !! key
  = Some (mkEntry response now_write (now_write + DataCache.defaultTTL)).
Proof.
  intros Hok. unfold CachedApi.cachedGet.
  destruct (if negb skipCache then DataCache.get now_read key c else (None, c))
    as [cached c1].
  destruct (match cached with
            | Some v => if truthy v then Some v else None
            | None => None
            end); [discriminate|].
  rewrite Hok. simpl. intros _. unfold DataCache.set_default, DataCache.set.
  apply lookup_insert_eq.
Qed.

Lemma cachedGet_round_trip now_read now_write later now_write' url key
    skipCache c response :
  apiFetch url Client.noOptions = Ok response ->
  truthy response = true ->
  let first := CachedApi.cachedGet truthy apiFetch now_read now_write url key
                                   skipCache c in
  requests first = [url] ->
  (later <= now_write + 300000 ->
     CachedApi.cachedGet truthy apiFetch later now_write' url key false
                         (cacheAfter first)
     = mkOutcome (Ok response) (cacheAfter first) [])
  /\ (now_write + 300000 < later ->
        requests (CachedApi.cachedGet truthy apiFetch later now_write' url key
                                      false (cacheAfter first)) = [url]).
Proof.
  intros Hok Ht first Hreq.
  pose proof (cachedGet_stores _ _ _ _ _ _ _ Hok Hreq) as Hstored.
  fold first in Hstored. split; intros Hlater.
  - by rewrite (cachedGet_hit _ _ _ _ _ _ Hstored).
  - by apply (cachedGet_expired _ _ _ _ _ _ Hstored).
Qed.

(** X6. Once [getUserVideos], [getVideoDetails] or [getUserProfile] has
    fetched a (truthy) response, a later call that may use the cache, made
    no more than five minutes (300000 ms) after the response was stored,
    returns that same response without any request and leaves the cache as
    it is; a call made later than that requests again. *)
Theorem cached_getters_round_trip now_read now_write later now_write'
    videoId skipCache c response :
  truthy response = true ->
  let videos := CachedApi.getUserVideos truthy apiFetch now_read now_write
                                        skipCache c in
  let details := CachedApi.getVideoDetails truthy apiFetch now_read now_write
                                           videoId skipCache c in
  let profile := CachedApi.getUserProfile truthy apiFetch now_read now_write
                                          skipCache c in
  (apiFetch "/api/videos" Client.noOptions = Ok response ->
   requests videos = ["/api/videos"] ->
     (later <= now_write + 300000 ->
        CachedApi.getUserVideos truthy apiFetch later now_write' false
                                (cacheAfter videos)
        = mkOutcome (Ok response) (cacheAfter videos) [])
     /\ (now_write + 300000 < later ->
           requests (CachedApi.getUserVideos truthy apiFetch later now_write'
                                             false (cacheAfter videos))
           = ["/api/videos"]))
  /\ (apiFetch ("/api/videos/" +:+ videoId) Client.noOptions = Ok response ->
      requests details = ["/api/videos/" +:+ videoId] ->
        (later <= now_write + 300000 ->
           CachedApi.getVideoDetails truthy apiFetch later now_write' videoId
                                     false (cacheAfter details)
           = mkOutcome (Ok response) (cacheAfter details) [])
        /\ (now_write + 300000 < later ->
              requests (CachedApi.getVideoDetails truthy apiFetch later
                          now_write' videoId false (cacheAfter details))
              = ["/api/videos/" +:+ videoId]))
  /\ (apiFetch "/api/users/profile" Client.noOptions = Ok response ->
      requests profile = ["/api/users/profile"] ->
        (later <= now_write + 300000 ->
           CachedApi.getUserProfile truthy apiFetch later now_write' false
                                    (cacheAfter profile)
           = mkOutcome (Ok response) (cacheAfter profile) [])
        /\ (now_write + 300000 < later ->
              requests (CachedApi.getUserProfile truthy apiFetch later
                          now_write' false (cacheAfter profile))
              = ["/api/users/profile"])).
Proof.
  intros Ht. cbv zeta.
  split; [|split]; intros Hok Hreq;
    exact (cachedGet_round_trip _ _ _ _ _ _ _ _ _ Hok Ht Hreq).
Qed.

(** X7. In [getUserVideos], [getVideoDetails] and [getUserProfile] alike, a
    forced refresh ([skipCache = true]) never serves the cache: it makes
    exactly one request and returns what the request settles with. A
    failed request never writes to the cache: after a forced refresh that
    fails the cache is exactly what it was, and after any failing call the
    cache holds nothing it did not hold before. *)
Theorem cached_getters_forced_refresh now_read now_write url key skipCache c :
  let forced := CachedApi.cachedGet truthy apiFetch now_read now_write url key
                                    true c in
  let call := CachedApi.cachedGet truthy apiFetch now_read now_write url key
                                  skipCache c in
  requests forced = [url]
  /\ returned forced = apiFetch url Client.noOptions
  /\ (forall m, apiFetch url Client.noOptions = Throw m ->
        cacheAfter forced = c /\ cacheAfter call ⊆ c).
Proof.
  cbv zeta. rewrite cachedGet_forced.
  split; [by destruct (apiFetch url Client.noOptions)|].
  split; [by destruct (apiFetch url Client.noOptions)|].
  intros m Hm. rewrite Hm. split; [done|].
  unfold CachedApi.cachedGet, DataCache.get.
  destruct skipCache; simpl; [by rewrite Hm|].
  destruct (c !! key) as [e|] eqn:He; [|by rewrite Hm].
  destruct (now_read >? expiresAt e); simpl.
  - rewrite Hm. simpl. apply delete_subseteq.
  - destruct (truthy (data e)); [done|]. by rewrite Hm.
Qed.

Lemma append_inj_prefix (p a b : string) : p +:+ a = p +:+ b -> a = b.
Proof. induction p as [|x p IH]; simpl; [done|]. intros [= H]. by apply IH. Qed.

Lemma includes_prefix (p s : string) : includes (p +:+ s) p = true.
Proof.
  assert (String.prefix p (p +:+ s) = true) as Hp.
  { induction p as [|x p IH]; simpl; [by destruct s|].
    destruct (Ascii.ascii_dec x x); [done|congruence]. }
  destruct p; simpl in *; [by destruct s|]. by rewrite Hp.
Qed.

Lemma cachedGet_other_key now_read now_write url key skipCache c k :
  k <> key ->
  cacheAfter (CachedApi.cachedGet truthy apiFetch now_read now_write url key
                                  skipCache c) !! k = c !! k.
Proof.
  intros Hne. unfold CachedApi.cachedGet.
  pose proof (get_other now_read key c k Hne) as Hget.
  destruct skipCache; simpl in *.
  - destruct (apiFetch url Client.noOptions); simpl; [|done].
    unfold DataCache.set_default, DataCache.set. by rewrite lookup_insert_ne.
  - destruct (DataCache.get now_read key c) as [cached c1]. simpl in Hget.
    destruct cached as [v|]; [destruct (truthy v); [done|]|];
      (destruct (apiFetch url Client.noOptions); simpl; [|done];
       unfold DataCache.set_default, DataCache.set;
       by rewrite lookup_insert_ne).
Qed.

(** X8. [getVideoDetails] of one video touches the cache under that video's
    key only: every other key, in particular the details of every other
    video, holds afterwards what it held before. *)
Theorem getVideoDetails_keeps_other_videos now_read now_write videoId other
    skipCache c k :
  (k <> CACHE_KEYS.VIDEO_DETAILS videoId ->
     cacheAfter (CachedApi.getVideoDetails truthy apiFetch now_read now_write
                                           videoId skipCache c) !! k = c !! k)
  /\ (other <> videoId ->
        cacheAfter (CachedApi.getVideoDetails truthy apiFetch now_read
                                              now_write videoId skipCache c)
          !! CACHE_KEYS.VIDEO_DETAILS other
        = c !! CACHE_KEYS.VIDEO_DETAILS other).
Proof.
  split.
  - intros Hk. by apply cachedGet_other_key.
  - intros Hne. apply cachedGet_other_key. unfold CACHE_KEYS.VIDEO_DETAILS.
    intros Heq. by apply append_inj_prefix in Heq.
Qed.

(** X9. After [invalidateVideosCache], the next [getUserVideos] and the
    next [getVideoDetails] of any video go to the network, whenever they
    are made and whether or not they may use the cache; the cached user
    profile is not affected. *)
Theorem invalidateVideosCache_forces_refetch now_read now_write videoId
    skipCache c :
  let c' := invalidateVideosCache c in
  requests (CachedApi.getUserVideos truthy apiFetch now_read now_write
                                    skipCache c') = ["/api/videos"]
  /\ requests (CachedApi.getVideoDetails truthy apiFetch now_read now_write
                                         videoId skipCache c')
     = ["/api/videos/" +:+ videoId]
  /\ c' !! CACHE_KEYS.USER_PROFILE = c !! CACHE_KEYS.USER_PROFILE.
Proof.
  cbv zeta. split; [|split].
  - unfold CachedApi.getUserVideos. rewrite cachedGet_absent.
    + by destruct (apiFetch "/api/videos" Client.noOptions).
    + by rewrite invalidateVideosCache_lookup.
  - unfold CachedApi.getVideoDetails. rewrite cachedGet_absent.
    + by destruct (apiFetch ("/api/videos/" +:+ videoId) Client.noOptions).
    + rewrite invalidateVideosCache_lookup. unfold videos_cache_key.
      unfold CACHE_KEYS.VIDEO_DETAILS. rewrite includes_prefix.
      by rewrite orb_true_r.
  - by rewrite invalidateVideosCache_lookup.
Qed.
End CachedApiFacts.

Lemma cached_getters_round_trip_witness :
  let api := fun (url : string) (_ : Client.RequestInit) => Ok ("body of " +:+ url) in
  let first := CachedApi.getUserVideos truthy_string api 0 5 true ∅ in
  truthy_string "body of /api/videos" = true
  /\ requests first = ["/api/videos"]
  /\ CachedApi.getUserVideos truthy_string api 300005 300010 false
                             (cacheAfter first)
     = mkOutcome (Ok "body of /api/videos") (cacheAfter first) [].
Proof.
  cbv zeta. split; [reflexivity|]. split; [reflexivity|].
  apply (proj1 (cached_getters_round_trip truthy_string
                  (fun url _ => Ok ("body of " +:+ url)) 0 5 300005 300010
                  "v1" true ∅ "body of /api/videos" eq_refl));
    [reflexivity|reflexivity|lia].
Defined.

Section WritersFacts.
Context {Any : Type} (truthy : Any -> bool).
Context (apiFetch : string -> Client.RequestInit -> result Any).
Context (JSON_stringify : JsonObject -> string).
Implicit Types (c : gmap string (CacheEntry Any)).

(** X10. When [updateUserPlan] or [initializeUser] succeeds, the profile it
    got is what [getUserProfile] returns from the cache for the next five
    minutes, without a request, whatever profile was cached before. When
    the call fails, the error is passed on and the cache is left exactly as
    it was. *)
Theorem profile_writers_refresh_cache now_write later now_write' plan c
    (profile : Any) :
  truthy profile = true ->
  later <= now_write + 300000 ->
  let updated := CachedApi.updateUserPlan apiFetch JSON_stringify now_write
                                          plan c in
  let created := CachedApi.initializeUser apiFetch now_write c in
  (returned updated = Ok profile ->
     CachedApi.getUserProfile truthy apiFetch later now_write' false
                              (cacheAfter updated)
     = mkOutcome (Ok profile) (cacheAfter updated) [])
  /\ (returned created = Ok profile ->
        CachedApi.getUserProfile truthy apiFetch later now_write' false
                                 (cacheAfter created)
        = mkOutcome (Ok profile) (cacheAfter created) [])
  /\ (forall m, returned updated = Throw m -> cacheAfter updated = c)
  /\ (forall m, returned created = Throw m -> cacheAfter created = c).
Proof.
  intros Ht Hlater. cbv zeta.
  unfold CachedApi.updateUserPlan, CachedApi.initializeUser.
  split; [|split; [|split]].
  - destruct (apiFetch "/api/users/plan" _) as [p|m]; simpl; [|done].
    intros [= ->]. unfold CachedApi.getUserProfile.
    rewrite (cachedGet_hit truthy apiFetch later now_write' _ _ _
               (mkEntry profile now_write (now_write + DataCache.defaultTTL)));
      [done| |simpl; unfold DataCache.defaultTTL; lia|done].
    unfold DataCache.set_default, DataCache.set. apply lookup_insert_eq.
  - destruct (apiFetch "/api/users/init" _) as [p|m]; simpl; [|done].
    intros [= ->]. unfold CachedApi.getUserProfile.
    rewrite (cachedGet_hit truthy apiFetch later now_write' _ _ _
               (mkEntry profile now_write (now_write + DataCache.defaultTTL)));
      [done| |simpl; unfold DataCache.defaultTTL; lia|done].
    unfold DataCache.set_default, DataCache.set. apply lookup_insert_eq.
  - intros m. by destruct (apiFetch "/api/users/plan" _).
  - intros m. by destruct (apiFetch "/api/users/init" _).
Qed.

Lemma cachedQuery_unfiltered_hit now_read now_write url key ttl c e :
  c !! key = Some e -> now_read <= expiresAt e -> truthy (data e) = true ->
  cachedQuery truthy (fun u => apiFetch u Client.noOptions) now_read now_write
              url key "" ttl false c
  = mkOutcome (Ok (data e)) c [].
Proof.
  intros He Hle Ht. unfold cachedQuery, DataCache.get. simpl.
  rewrite He. destruct (now_read >? expiresAt e) eqn:Hgt; [lia|].
  by rewrite Ht.
Qed.

Lemma cachedQuery_unfiltered_absent now_read now_write url key ttl skipCache c :
  c !! key = None ->
  requests (cachedQuery truthy (fun u => apiFetch u Client.noOptions) now_read
                        now_write url key "" ttl skipCache c) = [url].
Proof.
  intros Hnone. unfold cachedQuery.
  destruct skipCache; simpl.
  - by destruct (apiFetch url Client.noOptions).
  - rewrite get_miss; [|done]. by destruct (apiFetch url Client.noOptions).
Qed.

Lemma cachedQuery_unfiltered_expired now_read now_write url key ttl c e :
  c !! key = Some e -> expiresAt e < now_read ->
  requests (cachedQuery truthy (fun u => apiFetch u Client.noOptions) now_read
                        now_write url key "" ttl false c) = [url].
Proof.
  intros He Hlt. unfold cachedQuery, DataCache.get. simpl.
  rewrite He. destruct (now_read >? expiresAt e) eqn:Hgt; [|lia].
  by destruct (apiFetch url Client.noOptions).
Qed.

Lemma cachedQuery_unfiltered_stores now_read now_write url key ttl skipCache c
    response :
  returned (cachedQuery truthy (fun u => apiFetch u Client.noOptions) now_read
                        now_write url key "" ttl skipCache c) = Ok response ->
  requests (cachedQuery truthy (fun u => apiFetch u Client.noOptions) now_read
                        now_write url key "" ttl skipCache c) = [url] ->
  cacheAfter (cachedQuery truthy (fun u => apiFetch u Client.noOptions)
                          now_read now_write url key "" ttl skipCache c) !! key
  = Some (mkEntry response now_write (now_write + ttl)).
Proof.
  unfold cachedQuery.
  destruct (if negb skipCache && negb (truthy_string "")
            then DataCache.get now_read key c else (None, c)) as [cached c1].
  destruct (match cached with
            | Some v => if truthy v then Some v else None
            | None => None
            end); [discriminate|].
  destruct (apiFetch url Client.noOptions); simpl; [|discriminate].
  intros [= ->] _. unfold DataCache.set. apply lookup_insert_eq.
Qed.
End WritersFacts.

Lemma profile_writers_refresh_cache_witness :
  let api := fun (url : string) (_ : Client.RequestInit) =>
               Ok ("profile from " +:+ url) in
  let updated := CachedApi.updateUserPlan api (fun _ => "{}") 10
                                          ChoosePlan.pro ∅ in
  truthy_string "profile from /api/users/plan" = true
  /\ 300000 <= 10 + 300000
  /\ CachedApi.getUserProfile truthy_string api 300000 300001 false
                              (cacheAfter updated)
     = mkOutcome (Ok "profile from /api/users/plan") (cacheAfter updated) [].
Proof.
  cbv zeta. split; [reflexivity|]. split; [lia|].
  apply (proj1 (profile_writers_refresh_cache truthy_string
                  (fun url _ => Ok ("profile from " +:+ url)) (fun _ => "{}")
                  10 300000 300001 ChoosePlan.pro ∅
                  "profile from /api/users/plan" eq_refl ltac:(lia))).
  reflexivity.
Defined.

Section CheckUserExists.
Context {Json : Type} (detail : Json -> option string).
Context (API_URL : string).
Context (fetch : string -> Client.RequestInit -> result (Client.Response Json)).

(** X11. [checkUserExists] answers [true] only when the whole call went
    through: headers could be built, the request resolved, the response was
    ok and its body parsed. Every failure is answered [false], not only a
    404: no signed-in user, a rejected request, any error status, an
    unparseable body. *)
Theorem checkUserExists_true_iff_success now user tc :
  CachedApi.checkUserExists
    (fun endpoint options =>
       fst (Client.apiFetch detail API_URL fetch now user endpoint options tc))
  = true
  <-> exists hs tc1 response body,
        Client.getAuthHeaders now user tc = (Ok hs, tc1)
        /\ fetch (API_URL +:+ "/api/users/profile")
                 (Client.mkInit None None (∅ ∪ hs)) = Ok response
        /\ Client.ok response = true
        /\ Client.json response = Ok body.
Proof.
  unfold CachedApi.checkUserExists, Client.apiFetch. simpl.
  destruct (Client.getAuthHeaders now user tc) as [[hs|m] tc1]; simpl.
  - destruct (fetch (API_URL +:+ "/api/users/profile")
                    (Client.mkInit None None (∅ ∪ hs))) as [response|m] eqn:Hf;
      simpl.
    + destruct (Client.ok response) eqn:Hok; simpl.
      * destruct (Client.json response) as [body|m] eqn:Hj.
        -- split; [|done]. intros _. by exists hs, tc1, response, body.
        -- split; [done|]. intros (hs' & tc' & r' & b' & [= <- <-] & Hf' & _ & Hj').
           rewrite Hf in Hf'. injection Hf' as <-. congruence.
      * split; [done|]. intros (hs' & tc' & r' & b' & [= <- <-] & Hf' & Hok' & _).
        rewrite Hf in Hf'. injection Hf' as <-. congruence.
    + split; [done|]. intros (hs' & tc' & r' & b' & [= <- <-] & Hf' & _).
      congruence.
  - split; [done|]. by intros (hs' & tc' & r' & b' & [=] & _).
Qed.
End CheckUserExists.

Section AlertsAndComments.
Context {Number : Type}.
Context (number_truthy : Number -> bool) (number_toString : Number -> string).
Context (encode : string -> string).
Context {Any : Type} (truthy : Any -> bool).
Context (apiFetch : string -> Client.RequestInit -> result Any).
Implicit Types (c : gmap string (CacheEntry Any)).

Lemma alerts_unfiltered filters :
  carriesAlertFilter number_truthy filters = false ->
  URLSearchParams.toString encode (alertParams number_truthy number_toString filters)
  = "".
Proof.
  intros Hf.
  apply (alertParams_nil number_truthy number_toString encode
           (fun u => apiFetch u Client.noOptions) filters) in Hf.
  by rewrite Hf.
Qed.

Lemma comments_unfiltered filters :
  carriesCommentFilter number_truthy filters = false ->
  URLSearchParams.toString encode
    (commentParams number_truthy number_toString filters) = "".
Proof.
  intros Hf.
  apply (commentParams_nil number_truthy number_toString encode
           (fun u => apiFetch u Client.noOptions) filters) in Hf.
  by rewrite Hf.
Qed.

(** X12. [markAlertRead], [markAllAlertsRead] and [deleteAlert] (each is
    [alertWrite] at its URL and method) drop the cached alerts when their
    call succeeds and touch no other key, so that the next unfiltered
    [getAlerts] goes to the network; when the call fails they pass the
    error on and leave the cache exactly as it was. *)
Theorem alert_writes_invalidate_on_success url init filters now_read now_write
    skipCache c :
  let written := CachedApi.alertWrite apiFetch url init c in
  (fst written = Ok tt ->
     snd written !! "alerts:all" = None
     /\ (forall k, k <> "alerts:all" -> snd written !! k = c !! k)
     /\ (carriesAlertFilter number_truthy filters = false ->
           requests (getAlerts number_truthy number_toString encode truthy
                               (fun u => apiFetch u Client.noOptions)
                               now_read now_write filters skipCache
                               (snd written)) = ["/api/alerts"]))
  /\ (forall m, fst written = Throw m -> snd written = c).
Proof.
  cbv zeta. unfold CachedApi.alertWrite.
  destruct (apiFetch url init) as [v|m]; simpl.
  - split; [|done]. intros _. unfold DataCache.invalidate.
    split; [apply lookup_delete_eq|].
    split; [intros k Hk; by rewrite lookup_delete_ne|].
    intros Hf. unfold getAlerts. rewrite (alerts_unfiltered _ Hf). simpl.
    apply cachedQuery_unfiltered_absent. apply lookup_delete_eq.
  - split; [done|]. by intros m' _.
Qed.

(** X13. An unfiltered [getAlerts] that fetched a (truthy) response serves
    it from the cache for two minutes (120000 ms) after it was stored, and
    an unfiltered [getVideoComments] for five minutes (300000 ms); a call
    made after that time requests again. *)
Theorem unfiltered_queries_time_to_live now_read now_write later now_write'
    videoId alertFilters filters skipCache c (response : Any) :
  truthy response = true ->
  carriesAlertFilter number_truthy alertFilters = false ->
  carriesCommentFilter number_truthy filters = false ->
  let api := fun u => apiFetch u Client.noOptions in
  let alerts := getAlerts number_truthy number_toString encode truthy api
                          now_read now_write alertFilters skipCache c in
  let comments := getVideoComments number_truthy number_toString encode truthy
                    api now_read now_write videoId filters skipCache c in
  (returned alerts = Ok response -> requests alerts <> [] ->
     (later <= now_write + 120000 ->
        getAlerts number_truthy number_toString encode truthy api later
                  now_write' alertFilters false (cacheAfter alerts)
        = mkOutcome (Ok response) (cacheAfter alerts) [])
     /\ (now_write + 120000 < later ->
           requests (getAlerts number_truthy number_toString encode truthy api
                               later now_write' alertFilters false
                               (cacheAfter alerts)) = ["/api/alerts"]))
  /\ (returned comments = Ok response -> requests comments <> [] ->
        (later <= now_write + 300000 ->
           getVideoComments number_truthy number_toString encode truthy api
                            later now_write' videoId filters false
                            (cacheAfter comments)
           = mkOutcome (Ok response) (cacheAfter comments) [])
        /\ (now_write + 300000 < later ->
              requests (getVideoComments number_truthy number_toString encode
                          truthy api later now_write' videoId filters false
                          (cacheAfter comments))
              = ["/api/videos/" +:+ videoId +:+ "/comments"])).
Proof.
  intros Ht Ha Hc. cbv zeta. unfold getAlerts, getVideoComments.
  rewrite (alerts_unfiltered _ Ha), (comments_unfiltered _ Hc). simpl.
  split; intros Hret Hreq.
  - assert (requests (cachedQuery truthy (fun u => apiFetch u Client.noOptions)
                        now_read now_write "/api/alerts" "alerts:all" ""
                        (2 * 60 * 1000) skipCache c) = ["/api/alerts"]) as Hreq'.
    { revert Hreq. unfold cachedQuery.
      destruct (if negb skipCache && negb (truthy_string "")
                then DataCache.get now_read "alerts:all" c else (None, c))
        as [cached c1].
      destruct (match cached with
                | Some v => if truthy v then Some v else None
                | None => None
                end); [done|].
      by destruct (apiFetch "/api/alerts" Client.noOptions). }
    pose proof (cachedQuery_unfiltered_stores truthy apiFetch _ _ _ _ _ _ _ _
                  Hret Hreq') as Hstored.
    split; intros Hlater.
    + by rewrite (cachedQuery_unfiltered_hit truthy apiFetch _ _ _ _ _ _ _
                    Hstored) by (simpl; lia || done).
    + apply (cachedQuery_unfiltered_expired truthy apiFetch _ _ _ _ _ _ _
               Hstored). simpl. lia.
  - set (url := "/api/videos/" +:+ videoId +:+ "/comments") in *.
    assert (requests (cachedQuery truthy (fun u => apiFetch u Client.noOptions)
                        now_read now_write url
                        (CACHE_KEYS.VIDEO_COMMENTS videoId) ""
                        DataCache.defaultTTL skipCache c) = [url]) as Hreq'.
    { revert Hreq. unfold cachedQuery.
      destruct (if negb skipCache && negb (truthy_string "")
                then DataCache.get now_read (CACHE_KEYS.VIDEO_COMMENTS videoId) c
                else (None, c)) as [cached c1].
      destruct (match cached with
                | Some v => if truthy v then Some v else None
                | None => None
                end); [done|].
      by destruct (apiFetch url Client.noOptions). }
    pose proof (cachedQuery_unfiltered_stores truthy apiFetch _ _ _ _ _ _ _ _
                  Hret Hreq') as Hstored.
    split; intros Hlater.
    + by rewrite (cachedQuery_unfiltered_hit truthy apiFetch _ _ _ _ _ _ _
                    Hstored) by (simpl; unfold DataCache.defaultTTL; lia || done).
    + apply (cachedQuery_unfiltered_expired truthy apiFetch _ _ _ _ _ _ _
               Hstored). simpl. unfold DataCache.defaultTTL. lia.
Qed.
End AlertsAndComments.

Lemma unfiltered_queries_time_to_live_witness :
  let api := fun url : string => Ok ("body of " +:+ url) in
  let alerts := getAlerts int_truthy number_to_string plain truthy_string api
                          0 10 None false ∅ in
  carriesAlertFilter int_truthy None = false
  /\ returned alerts = Ok "body of /api/alerts"
  /\ requests alerts = ["/api/alerts"]
  /\ getAlerts int_truthy number_to_string plain truthy_string api 120010 120020
               None false (cacheAfter alerts)
     = mkOutcome (Ok "body of /api/alerts") (cacheAfter alerts) [].
Proof.
  cbv zeta. split; [reflexivity|]. split; [reflexivity|]. split; [reflexivity|].
  apply (proj1 (unfiltered_queries_time_to_live int_truthy number_to_string
                  plain truthy_string
                  (fun url _ => Ok ("body of " +:+ url)) 0 10 120010 120020
                  "v1" None None false ∅ "body of /api/alerts"
                  eq_refl eq_refl eq_refl));
    [reflexivity|discriminate|lia].
Defined.

Section CommentsInvalidation.
Context {T : Type}.
Implicit Types (c : gmap string (CacheEntry T)) (k : string).

(** X14. [invalidateCommentsCache(videoId)] with a non-empty video id
    removes the entries under that video's comments key and under
    ['comments:all'] and nothing else; called without a video id, or with
    the empty string, it removes exactly the entries whose key contains
    ['comments:']. *)
Theorem invalidateCommentsCache_scope videoId c k :
  (truthy_string videoId = true ->
     invalidateCommentsCache (Some videoId) c !! k
     = if String.eqb k (CACHE_KEYS.VIDEO_COMMENTS videoId)
          || String.eqb k CACHE_KEYS.ALL_COMMENTS
       then None else c !! k)
  /\ invalidateCommentsCache None c !! k
     = (if includes k "comments:" then None else c !! k)
  /\ invalidateCommentsCache (Some "") c = invalidateCommentsCache None c.
Proof.
  unfold invalidateCommentsCache, DataCache.invalidate.
  split; [|split; [|reflexivity]].
  - intros ->.
    destruct (String.eqb_spec k CACHE_KEYS.ALL_COMMENTS) as [->|Hall].
    + rewrite orb_true_r. apply lookup_delete_eq.
    + rewrite orb_false_r, lookup_delete_ne by done.
      destruct (String.eqb_spec k (CACHE_KEYS.VIDEO_COMMENTS videoId))
        as [->|Hv].
      * apply lookup_delete_eq.
      * by rewrite lookup_delete_ne.
  - destruct (String.eqb_spec k CACHE_KEYS.ALL_COMMENTS) as [->|Hall].
    + rewrite lookup_delete_eq. reflexivity.
    + rewrite lookup_delete_ne by done. apply invalidatePattern_lookup.
Qed.
End CommentsInvalidation.

Lemma invalidateCommentsCache_scope_witness :
  let c := <["comments:v1" := mkEntry "one" 0 300000]>
             (<["comments:v2" := mkEntry "two" 0 300000]> ∅) in
  truthy_string "v1" = true
  /\ invalidateCommentsCache (Some "v1") c !! "comments:v2"
     = Some (mkEntry "two" 0 300000).
Proof.
  cbv zeta. split; [reflexivity|].
  rewrite (proj1 (invalidateCommentsCache_scope "v1"
                    (<["comments:v1" := mkEntry "one" 0 300000]>
                       (<["comments:v2" := mkEntry "two" 0 300000]> ∅))
                    "comments:v2") eq_refl).
  reflexivity.
Defined.

Section UseCommentsFacts.
Context {Number : Type}.
Context (number_truthy : Number -> bool) (number_toString : Number -> string).
Context (encode : string -> string).
Context {Any : Type} (truthy : Any -> bool).
Context (apiFetch : string -> result Any).
Context (hundred : Number) (emptyPage : Any).

Lemma includes_app_r (a b p : string) :
  includes b p = true -> includes (a +:+ b) p = true.
Proof.
  intros Hb. induction a as [|x a IH]; simpl; [done|].
  rewrite IH. apply orb_true_r.
Qed.

Lemma withLimit_carries filters :
  number_truthy hundred = true ->
  carriesCommentFilter number_truthy (Some (withLimit hundred filters)) = true.
Proof.
  intros H100. unfold carriesCommentFilter, withLimit. simpl. rewrite H100.
  by rewrite !orb_true_r.
Qed.

(** X15. The call that [useComments] makes for a video always adds
    [limit: 100] to the filters, so it never reads or writes the data cache:
    whatever the filters (even none) and whether or not a refresh is forced,
    it makes exactly one request, for a URL with a query string, and leaves
    the cache as it was. A failing request is swallowed: the call then
    yields the empty page instead of an error. *)
Theorem useComments_never_uses_cache now_read now_write videoId filters
    forceRefresh (c : gmap string (CacheEntry Any)) :
  number_truthy hundred = true ->
  let url := commentsUrl number_truthy number_toString encode videoId
                         (Some (withLimit hundred filters)) in
  commentsOfVideo number_truthy number_toString encode truthy apiFetch hundred
                  emptyPage now_read now_write videoId filters forceRefresh c
  = mkOutcome (match apiFetch url with
               | Ok page => Ok page
               | Throw _ => Ok emptyPage
               end) c [url]
  /\ includes url "?" = true.
Proof.
  intros H100. cbv zeta. split.
  - unfold commentsOfVideo.
    rewrite getVideoComments_filtered by (by apply withLimit_carries).
    simpl. by destruct (apiFetch _).
  - unfold commentsUrl.
    rewrite toString_truthy.
    + do 3 apply includes_app_r. apply includes_prefix.
    + intros Hnil.
      apply (commentParams_nil number_truthy number_toString encode apiFetch)
        in Hnil.
      by rewrite withLimit_carries in Hnil.
Qed.
End UseCommentsFacts.

Lemma useComments_never_uses_cache_witness :
  let c := <["comments:abc" := mkEntry "cached page" 0 300000]> ∅ in
  int_truthy 100 = true
  /\ commentsOfVideo int_truthy number_to_string plain truthy_string
       (fun url => Throw "HTTP 500") 100 "empty page" 10 20 "abc"
       (mkCommentFilters None None None None None None None None) false c
     = mkOutcome (Ok "empty page") c ["/api/videos/abc/comments?limit=100"].
Proof.
  cbv zeta. split; [reflexivity|].
  exact (proj1 (useComments_never_uses_cache int_truthy number_to_string plain
                  truthy_string (fun url => Throw "HTTP 500") 100 "empty page"
                  10 20 "abc"
                  (mkCommentFilters None None None None None None None None)
                  false
                  (<["comments:abc" := mkEntry "cached page" 0 300000]> ∅)
                  eq_refl)).
Defined.

Section TokenLifecycle.
Context {Json : Type} (detail : Json -> option string).
Context (API_URL : string).

Lemma apiFetch_token_after (fetch : string -> Client.RequestInit ->
                                    result (Client.Response Json))
    now tok endpoint options :
  let tc1 := snd (Client.apiFetch detail API_URL fetch now (Some (Ok tok))
                                  endpoint options None) in
  tc1 = None \/ tc1 = Some (freshToken now tok).
Proof.
  cbv zeta. unfold Client.apiFetch. simpl.
  destruct (fetch _ _) as [response|m]; simpl; [|by right].
  destruct (Client.ok response); simpl; [by right|].
  destruct (Client.status response =? 401); [by left|by right].
Qed.

(** X16. The token a call obtained is reused by later calls, without asking
    Firebase again and without extending its life, as long as they are made
    strictly less than 55 minutes (3300000 ms) after it was obtained; from
    that moment on the next call obtains a new token and caches it for 55
    minutes in turn. After a 401 the cache is empty, so the next call
    obtains a new token however recent the old one was. *)
Theorem token_reused_for_55_minutes
    (fetch : string -> Client.RequestInit -> result (Client.Response Json))
    now now2 tok tok2 endpoint options (getIdToken : result string) :
  let tc1 := snd (Client.apiFetch detail API_URL fetch now (Some (Ok tok))
                                  endpoint options None) in
  (tc1 <> None -> now2 < now + 3300000 ->
     Client.getAuthHeaders now2 (Some getIdToken) tc1
     = (Ok (Client.authHeaders tok), tc1))
  /\ (tc1 <> None -> now + 3300000 <= now2 ->
        Client.getAuthHeaders now2 (Some (Ok tok2)) tc1
        = (Ok (Client.authHeaders tok2), Some (freshToken now2 tok2)))
  /\ (tc1 = None ->
        Client.getAuthHeaders now2 (Some (Ok tok2)) tc1
        = (Ok (Client.authHeaders tok2), Some (freshToken now2 tok2))).
Proof.
  cbv zeta.
  destruct (apiFetch_token_after fetch now tok endpoint options) as [-> | ->].
  - repeat split; try done.
  - unfold Client.getAuthHeaders, freshToken. simpl.
    split; [|split]; try done.
    + intros _ Hlt. destruct (now + 55 * 60 * 1000 >? now2) eqn:Hgt; [done|lia].
    + intros _ Hle. destruct (now + 55 * 60 * 1000 >? now2) eqn:Hgt; [lia|done].
Qed.

(** X17. Without a signed-in user [apiFetch] rejects with 'User not
    authenticated' before any request is made, even when a valid token is
    still cached; and when the cached token is missing or expired and
    Firebase fails to give a new one, it rejects with Firebase's error,
    again without a request. In both cases the token cache is left as it
    was. *)
Theorem apiFetch_needs_a_token
    (fetch : string -> Client.RequestInit -> result (Client.Response Json))
    now endpoint options tc m :
  Client.apiFetch detail API_URL fetch now None endpoint options tc
  = (Throw "User not authenticated", tc)
  /\ ((forall cached, tc = Some cached -> Client.tokenExpiresAt cached <= now) ->
      Client.apiFetch detail API_URL fetch now (Some (Throw m)) endpoint
                      options tc
      = (Throw m, tc)).
Proof.
  split; [reflexivity|].
  intros Hexp. unfold Client.apiFetch, Client.getAuthHeaders.
  destruct tc as [cached|]; [|done].
  specialize (Hexp cached eq_refl).
  destruct (Client.tokenExpiresAt cached >? now) eqn:Hgt; [lia|done].
Qed.
End TokenLifecycle.

Lemma token_reused_for_55_minutes_witness :
  let fetch := fun (_ : string) (_ : Client.RequestInit) =>
                 Ok (Client.mkResponse true 200 (Ok [("id", "v1")])) in
  let tc1 := snd (Client.apiFetch (member "detail") "http://localhost:8000"
                    fetch 0 (Some (Ok "tok")) "/api/videos" Client.noOptions
                    None) in
  tc1 = Some (freshToken 0 "tok")
  /\ 3299999 < 0 + 3300000
  /\ Client.getAuthHeaders 3299999 (Some (Throw "network down")) tc1
     = (Ok (Client.authHeaders "tok"), tc1).
Proof.
  cbv zeta. split; [reflexivity|]. split; [lia|].
  apply (proj1 (token_reused_for_55_minutes (member "detail")
                  "http://localhost:8000"
                  (fun _ _ => Ok (Client.mkResponse true 200 (Ok [("id", "v1")])))
                  0 3299999 "tok" "tok" "/api/videos" Client.noOptions
                  (Throw "network down"))).
  - discriminate.
  - lia.
Defined.

Lemma apiFetch_needs_a_token_witness :
  let fetch := fun (_ : string) (_ : Client.RequestInit) =>
                 Ok (Client.mkResponse true 200 (Ok [("id", "v1")])) in
  Client.tokenExpiresAt (freshToken 0 "tok") <= 3300000
  /\ Client.apiFetch (member "detail") "http://localhost:8000" fetch 3300000
       (Some (Throw "network down")) "/api/videos" Client.noOptions
       (Some (freshToken 0 "tok"))
     = (Throw "network down", Some (freshToken 0 "tok")).
Proof.
  cbv zeta. split; [simpl; lia|].
  apply (proj2 (apiFetch_needs_a_token (member "detail") "http://localhost:8000"
                  (fun _ _ => Ok (Client.mkResponse true 200 (Ok [("id", "v1")])))
                  3300000 "/api/videos" Client.noOptions
                  (Some (freshToken 0 "tok")) "network down")).
  intros cached [= <-]. simpl. lia.
Defined.

Section StepsFacts.

Lemma stepKept_refl s : stepKept s s.
Proof. by repeat split. Qed.

Lemma stepKept_trans a b c : stepKept a b -> stepKept b c -> stepKept a c.
Proof.
  intros (Hi & Hl & Hs) (Hi' & Hl' & Hs'). repeat split; try congruence. auto.
Qed.

Lemma kept_alter (f : Analyzing.Step -> Analyzing.Step) (i : nat) before steps :
  (forall s, stepKept s (f s)) ->
  Forall2 stepKept before steps ->
  Forall2 stepKept before (alter f i steps).
Proof.
  intros Hf Hall. revert i.
  induction Hall as [|a b before steps Hab Hall IH]; intros i; [constructor|].
  destruct i as [|i]; simpl.
  - constructor; [|done]. eapply stepKept_trans; [exact Hab|apply Hf].
  - constructor; [done|apply IH].
Qed.

Lemma kept_refl steps : Forall2 stepKept steps steps.
Proof. induction steps; constructor; [apply stepKept_refl|done]. Qed.

Lemma setStatus_completed_kept s :
  stepKept s (Analyzing.setStatus Analyzing.completed s).
Proof. by repeat split. Qed.

Lemma setStatus_inProgress_kept s :
  stepKept s (Analyzing.setStatus Analyzing.inProgress s).
Proof. by repeat split. Qed.

Lemma setProgress_kept p s : stepKept s (Analyzing.setProgress p s).
Proof. by repeat split. Qed.

Lemma kept_stage (b : bool) f i before steps :
  (forall s, stepKept s (f s)) ->
  Forall2 stepKept before steps ->
  Forall2 stepKept before (if b then alter f i steps else steps).
Proof. intros Hf Hall. destruct b; [by apply kept_alter|done]. Qed.

Lemma kept_stage_nested (b b' : bool) f g i before steps :
  (forall s, stepKept s (f s)) -> (forall s, stepKept s (g s)) ->
  Forall2 stepKept before steps ->
  Forall2 stepKept before
    (if b then (if b' then alter g i (alter f i steps) else alter f i steps)
     else steps).
Proof.
  intros Hf Hg Hall. destruct b; [|done].
  destruct b'; [apply kept_alter; [done|]|]; by apply kept_alter.
Qed.

Lemma kept_stage_twice (b : bool) f g i before steps :
  (forall s, stepKept s (f s)) -> (forall s, stepKept s (g s)) ->
  Forall2 stepKept before steps ->
  Forall2 stepKept before (if b then alter g i (alter f i steps) else steps).
Proof.
  intros Hf Hg Hall. destruct b; [|done].
  apply kept_alter; [done|]. by apply kept_alter.
Qed.

Local Ltac kept_setter :=
  first [ exact setStatus_completed_kept
        | exact setStatus_inProgress_kept
        | exact (setProgress_kept _) ].

Local Ltac keep :=
  repeat first
    [ apply kept_refl
    | apply kept_stage; [kept_setter|]
    | apply kept_stage_nested; [kept_setter|kept_setter|]
    | apply kept_stage_twice; [kept_setter|kept_setter|] ].

Lemma updateSteps_kept progress processed total steps :
  Forall2 stepKept steps (Analyzing.updateSteps progress processed total steps).
Proof. unfold Analyzing.updateSteps. cbv zeta. keep. Qed.

(** X18. [updateSteps] never takes a step back to pending and never changes
    the number of steps, their ids or their labels, whatever the progress
    reported and whatever the steps showed before: a step once in progress
    or completed stays started, also when a later report carries a lower
    progress. *)
Theorem updateSteps_never_resets progress processed total steps :
  let after := Analyzing.updateSteps progress processed total steps in
  length after = length steps
  /\ map Analyzing.id after = map Analyzing.id steps
  /\ map Analyzing.label after = map Analyzing.label steps
  /\ (forall i before,
        steps !! i = Some before ->
        started (Analyzing.stepStatus before) = true ->
        exists now, after !! i = Some now
                    /\ started (Analyzing.stepStatus now) = true).
Proof.
  cbv zeta.
  pose proof (updateSteps_kept progress processed total steps) as Hkept.
  revert Hkept.
  generalize (Analyzing.updateSteps progress processed total steps).
  intros after Hkept. split; [|split; [|split]].
  - symmetry. by eapply Forall2_length.
  - induction Hkept as [|a b l l' (Hi & _ & _) _ IH]; simpl; [done|].
    by rewrite Hi, IH.
  - induction Hkept as [|a b l l' (_ & Hl & _) _ IH]; simpl; [done|].
    by rewrite Hl, IH.
  - intros i before Hi Hstarted.
    destruct (Forall2_lookup_l _ _ _ _ _ Hkept Hi) as (now & Hnow & (_ & _ & Hs)).
    exists now. split; [done|]. by apply Hs.
Qed.
End StepsFacts.

Section StepsShown.
Import Analyzing.

Local Ltac settle x :=
  repeat match goal with
         | |- context [x >=? ?b] =>
             first [ replace (x >=? b) with true by lia
                   | replace (x >=? b) with false by lia ]
         | |- context [x <? ?b] =>
             first [ replace (x <? b) with true by lia
                   | replace (x <? b) with false by lia ]
         end.

Lemma progress_region (p : Z) :
  p < 5 \/ 5 <= p < 10 \/ 10 <= p < 15 \/ 15 <= p < 70 \/ 70 <= p < 75
  \/ 75 <= p < 85 \/ 85 <= p < 95 \/ 95 <= p < 100 \/ 100 <= p.
Proof. lia. Qed.

Lemma updateSteps_fresh progress processed total :
  statuses (updateSteps progress processed total initialSteps)
  = freshStatuses progress.
Proof.
  unfold freshStatuses, updateSteps.
  destruct (progress_region progress) as [H|[H|[H|[H|[H|[H|[H|[H|H]]]]]]]];
    settle progress; simpl; try reflexivity.
  by destruct ((processed >? 0) && (total >? 0)).
Qed.

(** X19. On a view that has seen one report, whatever the progress, the
    six steps read: some completed steps, then at most one step in
    progress, then pending steps. No step is shown in progress before a
    completed one or after a pending one, and never two at once. *)
Theorem fresh_steps_are_ordered progress processed total :
  exists (done : nat) (active : bool),
    statuses (updateSteps progress processed total initialSteps)
    = repeat completed done
      ++ (if active then [inProgress] else [])
      ++ repeat pending (6 - done - (if active then 1 else 0)).
Proof.
  rewrite updateSteps_fresh. unfold freshStatuses, updateSteps.
  destruct (progress_region progress) as [H|[H|[H|[H|[H|[H|[H|[H|H]]]]]]]];
    settle progress; simpl.
  - by exists 0%nat, false.
  - by exists 1%nat, false.
  - by exists 2%nat, false.
  - by exists 2%nat, true.
  - by exists 3%nat, false.
  - by exists 3%nat, true.
  - by exists 4%nat, true.
  - by exists 5%nat, true.
  - by exists 6%nat, false.
Qed.

Local Ltac six steps H :=
  destruct steps as [|s0 [|s1 [|s2 [|s3 [|s4 [|s5 [|s6 rest]]]]]]];
  try discriminate H;
  injection H as H0 H1 H2 H3 H4 H5.

Lemma updateSteps_rising steps p p' processed total :
  statuses steps = freshStatuses p -> p <= p' ->
  statuses (updateSteps p' processed total steps) = freshStatuses p'.
Proof.
  intros Hst Hle. revert Hst. unfold freshStatuses, statuses.
  destruct (progress_region p) as [H|[H|[H|[H|[H|[H|[H|[H|H]]]]]]]];
    unfold updateSteps at 1; settle p; simpl; intros Hst; six steps Hst;
    destruct (progress_region p') as [H'|[H'|[H'|[H'|[H'|[H'|[H'|[H'|H']]]]]]]];
    try (exfalso; lia);
    unfold updateSteps; settle p'; simpl;
    try destruct ((processed >? 0) && (total >? 0)); simpl; congruence.
Qed.

Lemma last_cons (l : list Z) (x d : Z) : List.last (x :: l) d = List.last l x.
Proof.
  revert x d. induction l as [|y l IH]; intros x d; [done|].
  change (List.last (y :: l) d = List.last (y :: l) x).
  by rewrite !IH.
Qed.

Lemma updateAll_rising rest steps p :
  statuses steps = freshStatuses p ->
  rising p (map reported rest) ->
  statuses (updateAll rest steps)
  = freshStatuses (List.last (map reported rest) p).
Proof.
  revert steps p. induction rest as [|[[p' processed] total] rest IH];
    intros steps p Hst Hrise; [done|].
  destruct Hrise as [Hle Hrise].
  change (statuses (updateAll rest (updateSteps p' processed total steps))
          = freshStatuses (List.last (map reported (((p', processed, total)) :: rest)) p)).
  rewrite (IH _ p' (updateSteps_rising _ _ _ _ _ Hst Hle) Hrise).
  f_equal. symmetry. apply (last_cons (map reported rest) p' p).
Qed.

(** X20. While the reported progress never decreases from one poll to the
    next, what the six steps show after any number of polls is what a fresh
    view shows for the latest progress alone: the earlier reports leave no
    trace in the statuses. *)
Theorem steps_show_latest_progress first rest :
  rising (reported first) (map reported rest) ->
  statuses (updateAll (first :: rest) initialSteps)
  = freshStatuses (List.last (map reported rest) (reported first)).
Proof.
  intros Hrise. destruct first as [[p processed] total].
  change (statuses (updateAll rest (updateSteps p processed total initialSteps))
          = freshStatuses (List.last (map reported rest) p)).
  apply updateAll_rising; [apply updateSteps_fresh|done].
Qed.
End StepsShown.

(** With a falling progress the statuses do keep a trace: a view that saw
    100 and then 20 still shows the later steps completed. *)
Example steps_keep_trace_when_progress_falls :
  statuses (updateAll [(100, 3, 3); (20, 1, 3)] Analyzing.initialSteps)
  = [Analyzing.completed; Analyzing.completed; Analyzing.inProgress;
     Analyzing.completed; Analyzing.completed; Analyzing.completed].
Proof. reflexivity. Qed.

Lemma steps_show_latest_progress_witness :
  rising 20 [80; 96]
  /\ statuses (updateAll [(20, 5, 50); (80, 50, 50); (96, 50, 50)]
                         Analyzing.initialSteps)
     = freshStatuses 96.
Proof.
  assert (rising 20 [80; 96]) as Hrise by (simpl; lia).
  split; [exact Hrise|].
  exact (steps_show_latest_progress (20, 5, 50) [(80, 50, 50); (96, 50, 50)]
                                    Hrise).
Defined.

Section PollingFacts.
Import Analyzing.





End PollingFacts.


Section TrimFacts.






Lemma includes_nonempty s a p : includes s (String a p) = true -> truthy_string s = true.
Proof. by destruct s. Qed.
End TrimFacts.

Section SubmissionFacts.
Import AddVideo.
Context (matchesVideoUrl : string -> bool).
Context (validateVideoUrl analyzeVideo : string -> result JsonObject).


(** X24. When a submission fails, at validation or at analysis, the page
    always shows an error text and clears both busy flags; the analysis
    call is not made when validation fails. *)
Theorem handleAnalyze_failure_is_shown videoUrl v m :
  truthy_string (trim videoUrl) = true ->
  fst (validateYouTubeUrl matchesVideoUrl videoUrl (setUrlError "" v)) = true ->
  validateVideoUrl videoUrl = Throw m
  \/ (exists data, validateVideoUrl videoUrl = Ok data)
     /\ analyzeVideo videoUrl = Throw m ->
  let after := handleAnalyze matchesVideoUrl validateVideoUrl analyzeVideo
                             videoUrl v in
  truthy_string (urlError after) = true
  /\ isValidating after = false /\ isAnalyzing after = false
  /\ (validateVideoUrl videoUrl = Throw m ->
        forall analyzeVideo',
          handleAnalyze matchesVideoUrl validateVideoUrl analyzeVideo' videoUrl v
          = after).
Proof.
  intros Hurl Hvalid Hfail. cbv zeta. unfold handleAnalyze.
  rewrite Hurl. simpl.
  destruct (validateYouTubeUrl matchesVideoUrl videoUrl (setUrlError "" v))
    as [valid v1]. simpl in Hvalid. subst valid. simpl.
  assert (forall w, truthy_string (urlError (onError m w)) = true
                    /\ isValidating (onError m w) = false
                    /\ isAnalyzing (onError m w) = false) as Herr.
  { intros w. unfold onError.
    destruct (includes m "403" || includes m "limit"); [done|].
    destruct (includes m "404" || includes m "not found"); [done|].
    destruct (includes m "Invalid") eqn:Hinv; [|done].
    split; [|done]. simpl. by eapply includes_nonempty. }
  destruct Hfail as [Hv|[[data Hv] Ha]]; rewrite Hv.
  - destruct (Herr (setIsValidating true v1)) as (H1 & H2 & H3).
    repeat split; done.
  - rewrite Ha.
    match goal with |- context [onError m ?w] =>
      destruct (Herr w) as (H1 & H2 & H3) end.
    repeat split; done.
Qed.

(** X25. When both calls succeed, the page raises the two success toasts
    in order, keeps no error text, and navigates to the progress view of
    the job the backend named; the analysing flag stays set. *)
Theorem handleAnalyze_success videoUrl v data response :
  truthy_string (trim videoUrl) = true ->
  validateYouTubeUrl matchesVideoUrl videoUrl (setUrlError "" v)
  = (true, setUrlError "" v) ->
  validateVideoUrl videoUrl = Ok data ->
  analyzeVideo videoUrl = Ok response ->
  handleAnalyze matchesVideoUrl validateVideoUrl analyzeVideo videoUrl v
  = mkView "" false true
      (toasts v ++ [ToastSuccess ("Video found: " +:+ interpolate (member "title" data));
                    ToastSuccess "Analysis started!"])
      (Some ("/analyzing?jobId=" +:+ interpolate (member "jobId" response))).
Proof.
  intros Hurl Hvalid Hv Ha. unfold handleAnalyze.
  rewrite Hurl. simpl. rewrite Hvalid, Hv, Ha. simpl.
  unfold navigate, toast. simpl. by rewrite <- app_assoc.
Qed.
End SubmissionFacts.

Lemma handleAnalyze_failure_is_shown_witness :
  let url := "https://youtube.com/watch?v=abc" in
  let after := AddVideo.handleAnalyze (fun _ => true)
                 (fun _ => Throw "Video not found") (fun _ => Ok [])
                 url AddVideo.initialView in
  truthy_string (trim url) = true
  /\ truthy_string (AddVideo.urlError after) = true
  /\ AddVideo.isValidating after = false
  /\ AddVideo.isAnalyzing after = false.
Proof.
  cbv zeta. split; [reflexivity|].
  pose proof (handleAnalyze_failure_is_shown (fun _ => true)
                (fun _ => Throw "Video not found") (fun _ => Ok [])
                "https://youtube.com/watch?v=abc" AddVideo.initialView
                "Video not found" eq_refl eq_refl (or_introl eq_refl)) as H.
  exact (conj (proj1 H) (conj (proj1 (proj2 H)) (proj1 (proj2 (proj2 H))))).
Defined.

Lemma handleAnalyze_success_witness :
  let url := "https://youtube.com/watch?v=abc" in
  truthy_string (trim url) = true
  /\ AddVideo.handleAnalyze (fun _ => true)
       (fun _ => Ok [("title", "My video")]) (fun _ => Ok [("jobId", "j1")])
       url AddVideo.initialView
     = AddVideo.mkView "" false true
         [ToastSuccess "Video found: My video"; ToastSuccess "Analysis started!"]
         (Some "/analyzing?jobId=j1").
Proof.
  cbv zeta. split; [reflexivity|].
  exact (handleAnalyze_success (fun _ => true)
           (fun _ => Ok [("title", "My video")]) (fun _ => Ok [("jobId", "j1")])
           "https://youtube.com/watch?v=abc" AddVideo.initialView
           [("title", "My video")] [("jobId", "j1")]
           eq_refl eq_refl eq_refl eq_refl).
Defined.

Section AskFacts.
Import AskAISection.
Context (askAI : AskAIRequest -> result AskAIResponse).


End AskFacts.



Section RateLimiterFacts.
Import RateLimiter.

Lemma key_of_user request user uid :
  state_user request = Some (Some user) ->
  dict_get "userId" user = PyStr uid -> uid <> "" ->
  get_user_identifier request = "user:" +:+ uid.
Proof.
  intros Hu Hid Hne. unfold get_user_identifier, attached_user.
  rewrite Hu. destruct user as [|entry rest]; [discriminate|].
  rewrite Hid. simpl. unfold truthy_string.
  by destruct (String.eqb_spec uid "").
Qed.

Lemma key_shape request :
  (exists uid, get_user_identifier request = "user:" +:+ uid)
  \/ get_user_identifier request = "ip:" +:+ remote_address request.
Proof.
  unfold get_user_identifier. destruct (attached_user request) as [user|]; [|by right].
  destruct (dict_get "userId" user) as [|uid]; [by right|]. simpl.
  destruct (truthy_string uid); [left; by exists uid|by right].
Qed.

(** X28. Rate-limit counters are kept apart: two requests of signed-in
    users get the same key exactly when their user ids are equal, wherever
    they come from; a request keyed by user id never shares its key with a
    request keyed by address; and two requests keyed by address share a key
    exactly when the addresses are equal. *)
Theorem rate_limit_keys_are_separate r1 r2 user1 user2 uid1 uid2 :
  state_user r1 = Some (Some user1) -> dict_get "userId" user1 = PyStr uid1 ->
  uid1 <> "" ->
  (state_user r2 = Some (Some user2) -> dict_get "userId" user2 = PyStr uid2 ->
   uid2 <> "" ->
     (get_user_identifier r1 = get_user_identifier r2 <-> uid1 = uid2))
  /\ (get_user_identifier r2 = "ip:" +:+ remote_address r2 ->
        get_user_identifier r1 <> get_user_identifier r2)
  /\ (forall a b : Request,
        get_user_identifier a = "ip:" +:+ remote_address a ->
        get_user_identifier b = "ip:" +:+ remote_address b ->
        (get_user_identifier a = get_user_identifier b
         <-> remote_address a = remote_address b)).
Proof.
  intros Hu1 Hid1 Hne1.
  rewrite (key_of_user r1 user1 uid1 Hu1 Hid1 Hne1). split; [|split].
  - intros Hu2 Hid2 Hne2. rewrite (key_of_user r2 user2 uid2 Hu2 Hid2 Hne2).
    split; [|by intros ->]. intros Heq. by apply append_inj_prefix in Heq.
  - intros ->. discriminate.
  - intros a b -> ->. split; [|by intros ->].
    intros Heq. by apply append_inj_prefix in Heq.
Qed.
End RateLimiterFacts.

Lemma rate_limit_keys_are_separate_witness :
  let r1 := RateLimiter.mkRequest
              (Some (Some [("userId", RateLimiter.PyStr "u1")])) "10.0.0.7" in
  let r2 := RateLimiter.mkRequest None "10.0.0.7" in
  RateLimiter.state_user r1 = Some (Some [("userId", RateLimiter.PyStr "u1")])
  /\ RateLimiter.get_user_identifier r1 = "user:u1"
  /\ RateLimiter.get_user_identifier r2 = "ip:10.0.0.7"
  /\ (RateLimiter.get_user_identifier r1 = RateLimiter.get_user_identifier r2
      -> False).
Proof.
  cbv zeta. split; [reflexivity|]. split; [reflexivity|]. split; [reflexivity|].
  apply (proj1 (proj2 (rate_limit_keys_are_separate
                         (RateLimiter.mkRequest
                            (Some (Some [("userId", RateLimiter.PyStr "u1")]))
                            "10.0.0.7")
                         (RateLimiter.mkRequest None "10.0.0.7")
                         [("userId", RateLimiter.PyStr "u1")] [] "u1" ""
                         eq_refl eq_refl ltac:(discriminate)))).
  reflexivity.
Defined.
